(** * KiBot: the [pcb_print] and [blender_export] outputs

    A shallow embedding of [kibot/out_pcb_print.py] and
    [kibot/out_blender_export.py], and the properties of the two outputs
    proved over it.

    The Python code is sequential glue around a file system, a PDF library
    (PyPDF2), the KiCad plot controller and the Blender executable.  The
    file system is a finite map from path names to PDF documents, Python
    exceptions are a result type, and the functions that touch the file
    system live in a small state-and-exception monad.  What the external
    engines compute (the plot of a layer, the merge of two pages) is kept
    abstract in type classes, the way the Python code only sees their
    interface. *)

From Stdlib Require Import Ascii QArith.
From stdpp Require Import base gmap strings list pretty.

Local Open Scope Z_scope.

(** ** Python values the code handles *)

(** Python [float] (and the [Decimal] behind PyPDF2's [FloatObject]): only
    the operations the sources apply to such numbers are required. *)
Class PyFloat := {
  float : Type;
  float_of_Z : Z → float;            (* int to float, and literals like 1.0 *)
  float_lit : Q → float;              (* a literal like 3.33 *)
  float_add : float → float → float;
  float_mul : float → float → float;
  float_div : float → float → float;
  float_neg : float → float;
  float_eqb : float → float → bool;
  float_str : float → string;        (* str(x) *)
}.

(** The instance used to run the model on concrete inputs: exact rationals. *)
Definition Q_str (x : Q) : string :=
  pretty (Qnum x) +:+ "/" +:+ pretty (Zpos (Qden x)).

Definition Q_PyFloat : PyFloat := {|
  float := Q;
  float_of_Z := inject_Z;
  float_lit := id;
  float_add := Qplus;
  float_mul := Qmult;
  float_div := Qdiv;
  float_neg := Qopp;
  float_eqb := Qeq_bool;
  float_str := Q_str;
|}.

(** Exceptions that leave the modelled functions. *)
Inductive exn :=
  | KiPlotConfigurationError (msg : string)
  | UnboundLocalError (name : string)
  | IndexError
  | ValueError
  | KeyError
  | TypeError
  | FileNotFoundError.

Inductive result (A : Type) :=
  | Ok (a : A)
  | Raise (e : exn).
Arguments Ok {A} a.
Arguments Raise {A} e.

(** [os.path.join] of two components (posixpath). *)
Module posixpath.
Definition startswith_sep (b : string) : bool :=
  match b with String "/"%char _ => true | _ => false end.

Fixpoint endswith_sep (a : string) : bool :=
  match a with
  | "" => false
  | String c "" => bool_decide (c = "/"%char)
  | String _ a' => endswith_sep a'
  end.

Definition join (a b : string) : string :=
  if startswith_sep b then b
  else if bool_decide (a = "") || endswith_sep a then a +:+ b
  else a +:+ "/" +:+ b.
End posixpath.

(** ** PDF documents as PyPDF2 presents them *)

Section pdf.
Context `{PyFloat}.

Inductive pdf_object :=
  | NumberObject (n : Z)
  | FloatObject (d : float)
  | BooleanObject (b : bool)
  | NameObject (s : string)
  | TextStringObject (s : string)
  | NullObject.

(** One entry of [ContentStream.operations]: (operands, operator). *)
Local Abbreviation operation := (list pdf_object * string)%type.

(** A page: its content stream, and whatever else the page dictionary
    carries (left uninterpreted). *)
Record page := Page {
  Contents : list operation;
  page_dict : string;
}.

(** A PDF file: the list of its pages; [getPage n] is the lookup. *)
Local Abbreviation pdf := (list page).

(** [x == 0] for an operand [x]: the numeric objects compare by value,
    every other object is different from an int. *)
Definition eq_int_0 (x : pdf_object) : bool :=
  match x with
  | NumberObject n => bool_decide (n = 0)
  | FloatObject d => float_eqb d (float_of_Z 0)
  | _ => false
  end.

(** [operands == [0, 0, 0]]: list equality, element by element. *)
Definition operands_eq_000 (operands : list pdf_object) : bool :=
  match operands with
  | [a; b; c] => eq_int_0 a && eq_int_0 b && eq_int_0 c
  | _ => false
  end.

Definition is_rg (operator : string) : bool :=
  bool_decide (operator = "rg") || bool_decide (operator = "RG").
End pdf.

Abbreviation operation := (list pdf_object * string)%type.
Abbreviation pdf := (list page).

(** What PyPDF2 does to pages, beyond reading and writing them. *)
Class PyPDF2 `{PyFloat} := {
  mergePage : page → page → page;          (* page.mergePage(page2) *)
  compressContentStreams : page → page;
}.

(** ** The file system, and the monad of the functions that use it *)

Section fs.
Context `{PyFloat}.

Record filesystem := FS {
  files : gmap string pdf;
  (* paths that cannot be opened for writing *)
  readonly : gset string;
}.

Definition M (A : Type) : Type := filesystem → result A * filesystem.

Definition ret {A} (a : A) : M A := λ fs, (Ok a, fs).
Definition raise {A} (e : exn) : M A := λ fs, (Raise e, fs).
Definition bind {A B} (m : M A) (k : A → M B) : M B :=
  λ fs, match m fs with
        | (Ok a, fs') => k a fs'
        | (Raise e, fs') => (Raise e, fs')
        end.

(** [str(e)] of the [IOError] of a failed [open]. *)
Definition ENOENT (path : string) : string :=
  "[Errno 2] No such file or directory: '" +:+ path +:+ "'".
Definition EACCES (path : string) : string :=
  "[Errno 13] Permission denied: '" +:+ path +:+ "'".

(** [PdfFileReader(open(path, 'rb'))]: the document, or the text of the
    [IOError]. *)
Definition read_pdf (path : string) (fs : filesystem) : string + pdf :=
  match files fs !! path with
  | Some d => inr d
  | None => inl (ENOENT path)
  end.

(** [output.write(open(path, 'wb'))]: the new file system, or the text
    of the [IOError]. *)
Definition write_pdf (path : string) (d : pdf) (fs : filesystem)
  : string + filesystem :=
  if bool_decide (path ∈ readonly fs) then inl (EACCES path)
  else inr (FS (<[path := d]> (files fs)) (readonly fs)).
End fs.

Notation "'let!' x ':=' m 'in' k" := (bind m (λ x, k))
  (at level 10, x pattern, m at level 100, k at level 200, only parsing).
Notation "'do!' m 'in' k" := (bind m (λ _, k))
  (at level 10, m at level 100, k at level 200, only parsing).

(** ** [out_pcb_print.py]: module-level functions *)

(** The globals of [GS] the module reads. *)
Class GS := {
  pcb_basename : string;
  ki5 : bool;                 (* GS.ki5() *)
  work_layer_id : Z;          (* GS.board.GetLayerID(GS.work_layer) *)
}.

Section pcb_print_functions.
Context `{PyFloat} `{!PyPDF2} `{GS}.

Local Abbreviation color3 := (float * float * float)%type.

(** [int(s, 16)] on the strings that consist of hex digits; every other
    string is refused with [ValueError].  (Python also reads a sign,
    surrounding blanks, a [0x] prefix and single underscores; colors that
    went through the option validation contain none of them.) *)
Definition hex_digit (c : ascii) : option Z :=
  let code := Z.of_N (N_of_ascii c) in
  if (48 <=? code) && (code <=? 57) then Some (code - 48)        (* 0-9 *)
  else if (97 <=? code) && (code <=? 102) then Some (code - 87)  (* a-f *)
  else if (65 <=? code) && (code <=? 70) then Some (code - 55)   (* A-F *)
  else None.

Fixpoint int16_go (acc : Z) (s : string) : option Z :=
  match s with
  | "" => Some acc
  | String c s' =>
      match hex_digit c with
      | Some d => int16_go (16 * acc + d) s'
      | None => None
      end
  end.

Definition int16 (s : string) : result Z :=
  match s with
  | "" => Raise ValueError
  | _ => match int16_go 0 s with Some n => Ok n | None => Raise ValueError end
  end.

(** [value.lstrip('#')] *)
Fixpoint lstrip_hash (value : string) : string :=
  match value with
  | String "#"%char value' => lstrip_hash value'
  | _ => value
  end.

(** [value[i:j]] for [0 <= i <= j] *)
Definition slice (i j : nat) (value : string) : string :=
  String.substring i (j - i) value.

(** Return (red, green, blue) in float between 0-1 for the color given
    as #rrggbb. *)
Definition hex_to_rgb (value : string) : result (color3 * float) :=
  let value := lstrip_hash value in
  match int16 (slice 0 2 value), int16 (slice 2 4 value), int16 (slice 4 6 value) with
  | Ok r, Ok g, Ok b =>
      let rgb := (float_div (float_of_Z r) (float_of_Z 255),
                  float_div (float_of_Z g) (float_of_Z 255),
                  float_div (float_of_Z b) (float_of_Z 255)) in
      if bool_decide (String.length value = 8%nat) then
        match int16 (String.substring 6 (String.length value - 6) value) with
        | Ok a => Ok (rgb, float_div (float_of_Z a) (float_of_Z 255))
        | Raise e => Raise e
        end
      else Ok (rgb, float_of_Z 1)
  | Raise e, _, _ | _, Raise e, _ | _, _, Raise e => Raise e
  end.

Definition to_gray (color : color3) : color3 :=
  let avg := float_div (float_add (float_add color.1.1 color.1.2) color.2)
                       (float_of_Z 3) in
  (avg, avg, avg).

(** The body of the [for operands, operator in content.operations] loop
    of [colorize_pdf], with its index [i]: the list is updated in place
    while it is traversed.  [n] counts the iterations left. *)
Fixpoint operations_loop (color : color3) (n i : nat)
    (operations : list operation) : list operation :=
  match n with
  | O => operations
  | S n' =>
      match operations !! i with
      | None => operations
      | Some (operands, operator) =>
          let operations' :=
            if is_rg operator then
              if operands_eq_000 operands then
                <[i := ([FloatObject color.1.1; FloatObject color.1.2;
                         FloatObject color.2],
                        from_option snd operator (operations !! i))]>
                  operations
              else operations
            else operations in
          operations_loop color n' (S i) operations'
      end
  end.

Definition colorize_page (color : color3) (p : page) : page :=
  let content := Contents p in
  let content := operations_loop color (length content) 0 content in
  Page content (page_dict p).

(** The [for page in range(source.getNumPages())] loop: [output] is the
    writer's page list. *)
Definition pages_loop (color : color3) (source : pdf) : pdf :=
  foldl (λ output n,
           match source !! n with
           | Some p => output ++ [colorize_page color p]
           | None => output
           end) [] (seq 0 (length source)).

Definition colorize_pdf (folder in_file out_file : string) (color : color3)
  : M unit :=
  λ fs,
    match read_pdf (posixpath.join folder in_file) fs with
    | inl er =>
        (Raise (KiPlotConfigurationError
                  ("Error reading `" +:+ in_file +:+ "` (" +:+ er +:+ ")")), fs)
    | inr source =>
        let output := pages_loop color source in
        match write_pdf (posixpath.join folder out_file) output fs with
        | inl er =>
            (Raise (KiPlotConfigurationError
                      ("Error creating `" +:+ out_file +:+ "` (" +:+ er +:+ ")")), fs)
        | inr fs' => (Ok (), fs')
        end
    end.

(** [merge_pdf]: the loop over [input_files].  [i] counts the files read
    so far and [merged_page] is the local variable, unbound ([None])
    until the first file has been read. *)
Fixpoint merge_pdf_loop (input_folder : string) (input_files : list string)
    (i : nat) (merged_page : option page) (fs : filesystem)
  : result (option page) :=
  match input_files with
  | [] => Ok merged_page
  | filename :: input_files' =>
      match read_pdf (posixpath.join input_folder filename) fs with
      | inl er =>
          Raise (KiPlotConfigurationError
                   ("Error reading `" +:+ filename +:+ "` (" +:+ er +:+ ")"))
      | inr pdf_reader =>
          match pdf_reader !! 0%nat with
          | None => Raise IndexError
          | Some page_obj =>
              if bool_decide (i = 0%nat) then
                merge_pdf_loop input_folder input_files' (i + 1) (Some page_obj) fs
              else
                match merged_page with
                | None => Raise (UnboundLocalError "merged_page")
                | Some merged =>
                    merge_pdf_loop input_folder input_files' (i + 1)
                      (Some (mergePage merged page_obj)) fs
                end
          end
      end
  end.

(** Merge all pages into one. *)
Definition merge_pdf (input_folder : string) (input_files : list string)
    (output_folder output_file : string) : M unit :=
  λ fs,
    match merge_pdf_loop input_folder input_files 0 None fs with
    | Raise e => (Raise e, fs)
    | Ok None => (Raise (UnboundLocalError "merged_page"), fs)
    | Ok (Some merged_page) =>
        let output := [merged_page] in
        match write_pdf (posixpath.join output_folder output_file) output fs with
        | inl er =>
            (Raise (KiPlotConfigurationError
                      ("Error creating `" +:+ output_file +:+ "` (" +:+ er +:+ ")")), fs)
        | inr fs' => (Ok (), fs')
        end
    end.

Fixpoint create_pdf_from_pages_loop (input_folder : string)
    (input_files : list string) (output : pdf) (fs : filesystem)
  : result pdf :=
  match input_files with
  | [] => Ok output
  | filename :: input_files' =>
      match read_pdf (posixpath.join input_folder filename) fs with
      | inl er =>
          Raise (KiPlotConfigurationError
                   ("Error reading `" +:+ filename +:+ "` (" +:+ er +:+ ")"))
      | inr pdf_reader =>
          match pdf_reader !! 0%nat with
          | None => Raise IndexError
          | Some page_obj =>
              create_pdf_from_pages_loop input_folder input_files'
                (output ++ [compressContentStreams page_obj]) fs
          end
      end
  end.

Definition create_pdf_from_pages (input_folder : string)
    (input_files : list string) (output_fn : string) : M unit :=
  λ fs,
    match create_pdf_from_pages_loop input_folder input_files [] fs with
    | Raise e => (Raise e, fs)
    | Ok output =>
        match write_pdf output_fn output fs with
        | inl er =>
            (Raise (KiPlotConfigurationError
                      ("Error creating `" +:+ output_fn +:+ "` (" +:+ er +:+ ")")), fs)
        | inr fs' => (Ok (), fs')
        end
    end.

(** [colorize_layer]: [filelist] is extended in place; the model returns
    the extended list. *)
Definition colorize_layer (suffix color : string) (monochrome : bool)
    (filelist : list string) (temp_dir : string) : M (list string) :=
  let in_file := pcb_basename +:+ "-" +:+ suffix +:+ ".pdf" in
  if bool_decide (color ≠ "#000000") then
    let out_file := pcb_basename +:+ "-" +:+ suffix +:+ "-colored.pdf" in
    match hex_to_rgb color with
    | Raise e => raise e
    | Ok (rgb, alpha) =>
        let color := if negb monochrome then rgb else to_gray rgb in
        do! colorize_pdf temp_dir in_file out_file color in
        ret (filelist ++ [out_file])
    end
  else ret (filelist ++ [in_file]).
End pcb_print_functions.

Abbreviation color3 := (float * float * float)%type.

(** ** [out_pcb_print.py]: the option classes *)

(** Data for a layer ([LayerOptions], with the members of [Layer] the
    module reads). *)
Record LayerOptions := {
  layer : string;
  suffix : string;
  _id : Z;
  color : string;
  plot_footprint_refs : bool;
  plot_footprint_values : bool;
  force_plot_invisible_refs_vals : bool;
}.

Definition LayerOptions_set_color (c : string) (la : LayerOptions) :=
  {| layer := layer la; suffix := suffix la; _id := _id la; color := c;
     plot_footprint_refs := plot_footprint_refs la;
     plot_footprint_values := plot_footprint_values la;
     force_plot_invisible_refs_vals := force_plot_invisible_refs_vals la |}.

(** A loaded color theme. *)
Record color_theme_t := {
  layer_id2color : gmap Z string;
  pcb_frame : string;
}.

(** The parts of KiBot the option classes call and that are defined in
    other modules: the test [Optionable.validate_color] makes on a color,
    [Layer.config] (the [super().config] of a layer), [Layer.solve] and
    [load_color_theme].  The two layer functions end with the text of a
    [KiPlotConfigurationError] or with their result. *)
Class KiBot := {
  color_is_valid : string → bool;
  Layer_config : LayerOptions → string + LayerOptions;
  Layer_solve : list LayerOptions → string + list LayerOptions;
  load_color_theme : string → option color_theme_t;
}.

Section pcb_print_options.
Context `{PyFloat} `{KiBot}.

(** One page of the output document.  [layers] is [None] while the
    member still holds the class [LayerOptions], that is when the
    configuration has no [layers] list. *)
Record PagesOptions := {
  mirror : bool;
  monochrome : bool;
  scaling : float;
  title : string;
  sheet : string;
  sheet_reference_color : string;
  line_width : float;
  negative_plot : bool;
  exclude_pads_from_silkscreen : bool;
  tent_vias : bool;
  layers : option (list LayerOptions);
}.

Definition PagesOptions_set_layers (l : option (list LayerOptions))
    (p : PagesOptions) :=
  {| mirror := mirror p; monochrome := monochrome p; scaling := scaling p;
     title := title p; sheet := sheet p;
     sheet_reference_color := sheet_reference_color p;
     line_width := line_width p; negative_plot := negative_plot p;
     exclude_pads_from_silkscreen := exclude_pads_from_silkscreen p;
     tent_vias := tent_vias p; layers := l |}.

(** [self._drill_marks]: the configured name, replaced by KiCad's number
    at the end of [config]. *)
Inductive drill_marks_t :=
  | DrillName (name : string)
  | DrillCode (code : Z).

(** [PCB_PrintOptions]; [pages] is [None] while the member still holds
    the class [PagesOptions]. *)
Record PCB_PrintOptions := {
  output : string;
  hide_excluded : bool;
  _drill_marks : drill_marks_t;
  color_theme : string;
  _color_theme : option color_theme_t;
  plot_sheet_reference : bool;
  pages : option (list PagesOptions);
  options_title : string;
}.

Definition PCB_PrintOptions_update (dm : drill_marks_t)
    (th : option color_theme_t) (pgs : option (list PagesOptions))
    (self : PCB_PrintOptions) :=
  {| output := output self; hide_excluded := hide_excluded self;
     _drill_marks := dm; color_theme := color_theme self;
     _color_theme := th; plot_sheet_reference := plot_sheet_reference self;
     pages := pgs; options_title := options_title self |}.

(** [Optionable.validate_color], called on the value of an option. *)
Definition validate_color (name value : string) : result unit :=
  if color_is_valid value then Ok ()
  else Raise (KiPlotConfigurationError ("Invalid color for `" +:+ name +:+ "`")).

(** [mapM] for [result], the way a Python loop stops at the first
    exception. *)
Fixpoint mapR {A B} (f : A → result B) (l : list A) : result (list B) :=
  match l with
  | [] => Ok []
  | a :: l' =>
      match f a with
      | Raise e => Raise e
      | Ok b => match mapR f l' with
                | Raise e => Raise e
                | Ok bs => Ok (b :: bs)
                end
      end
  end.

Definition LayerOptions_config (la : LayerOptions) : result LayerOptions :=
  match Layer_config la with
  | inl msg => Raise (KiPlotConfigurationError msg)
  | inr la =>
      if bool_decide (color la ≠ "") then
        match validate_color "color" (color la) with
        | Raise e => Raise e
        | Ok _ => Ok la
        end
      else Ok la
  end.

(** [PagesOptions.config].  Its [super().config] creates and configures
    the layers of the list, when the page has one. *)
Definition PagesOptions_config (p : PagesOptions) : result PagesOptions :=
  let configured :=
    match layers p with
    | None => Ok None
    | Some l => match mapR LayerOptions_config l with
                | Raise e => Raise e
                | Ok l' => Ok (Some l')
                end
    end in
  match configured with
  | Raise e => Raise e
  | Ok None => Raise (KiPlotConfigurationError "Missing `layers` list")
  | Ok (Some l) =>
      (* Fill the ID member for all the layers *)
      match Layer_solve l with
      | inl msg => Raise (KiPlotConfigurationError msg)
      | inr l' =>
          let p' := PagesOptions_set_layers (Some l') p in
          if bool_decide (sheet_reference_color p ≠ "") then
            match validate_color "sheet_reference_color" (sheet_reference_color p) with
            | Raise e => Raise e
            | Ok _ => Ok p'
            end
          else Ok p'
      end
  end.

(** Mappings to KiCad config values. *)
Definition _drill_marks_map : gmap string Z :=
  {[ "none" := 0; "small" := 1; "full" := 2 ]}.

(** The setter of the [drill_marks] property. *)
Definition set_drill_marks (val : string) (self : PCB_PrintOptions)
  : result PCB_PrintOptions :=
  if bool_decide (val ∉ dom _drill_marks_map) then
    Raise (KiPlotConfigurationError ("Unknown drill mark type: " +:+ val))
  else Ok (PCB_PrintOptions_update (DrillName val) (_color_theme self) (pages self) self).

(** Assign a color if none was defined. *)
Definition assign_color (layer_id2color : gmap Z string) (la : LayerOptions)
  : LayerOptions :=
  if bool_decide (color la = "") then
    match layer_id2color !! _id la with
    | Some c => LayerOptions_set_color c la
    | None => LayerOptions_set_color "#000000" la
    end
  else la.

Definition assign_colors (layer_id2color : gmap Z string) (p : PagesOptions)
  : PagesOptions :=
  PagesOptions_set_layers (fmap (M := list) (assign_color layer_id2color) <$> layers p) p.

(** [PCB_PrintOptions.config].  [drill_marks] is the value the
    configuration gives to the option of that name, if it gives one;
    [super().config] hands it to the setter, and creates and configures
    the pages of the list, when there is one. *)
Definition PCB_PrintOptions_config (drill_marks : option string)
    (self : PCB_PrintOptions) : result PCB_PrintOptions :=
  let after_setter :=
    match drill_marks with
    | Some val => set_drill_marks val self
    | None => Ok self
    end in
  match after_setter with
  | Raise e => Raise e
  | Ok self =>
      let configured :=
        match pages self with
        | None => Ok None
        | Some l => match mapR PagesOptions_config l with
                    | Raise e => Raise e
                    | Ok l' => Ok (Some l')
                    end
        end in
      match configured with
      | Raise e => Raise e
      | Ok None => Raise (KiPlotConfigurationError "Missing `pages` list")
      | Ok (Some pgs) =>
          match load_color_theme (color_theme self) with
          | None =>
              Raise (KiPlotConfigurationError
                       ("Unable to load `" +:+ color_theme self +:+ "` color theme"))
          | Some theme =>
              let pgs := assign_colors (layer_id2color theme) <$> pgs in
              match _drill_marks self with
              | DrillName name =>
                  match _drill_marks_map !! name with
                  | Some code =>
                      Ok (PCB_PrintOptions_update (DrillCode code) (Some theme)
                            (Some pgs) self)
                  | None => Raise KeyError
                  end
              | DrillCode _ => Raise KeyError
              end
          end
      end
  end.
End pcb_print_options.

(** ** The KiCad plot controller *)

Section pcbnew.
Context `{PyFloat}.

Inductive param_value :=
  | PBool (b : bool)
  | PInt (n : Z)
  | PFloat (x : float)
  | PStr (s : string).

(** [PCB_PLOT_PARAMS]: the output directory, and the other parameters by
    the name of their setter. *)
Record PCB_PLOT_PARAMS := {
  OutputDirectory : string;
  params : gmap string param_value;
}.

Definition SetOutputDirectory (d : string) (po : PCB_PLOT_PARAMS) :=
  {| OutputDirectory := d; params := params po |}.
Definition SetParam (name : string) (v : param_value) (po : PCB_PLOT_PARAMS) :=
  {| OutputDirectory := OutputDirectory po; params := <[name := v]> (params po) |}.

(** [PLOT_CONTROLLER]: its options, the layer set by [SetLayer] and the
    plot file opened by [OpenPlotfile] (suffix and sheet description). *)
Record PLOT_CONTROLLER := {
  plot_options : PCB_PLOT_PARAMS;
  plot_layer : Z;
  plot_file : option (string * string);
}.

Definition with_options (f : PCB_PLOT_PARAMS → PCB_PLOT_PARAMS)
    (pc : PLOT_CONTROLLER) :=
  {| plot_options := f (plot_options pc); plot_layer := plot_layer pc;
     plot_file := plot_file pc |}.
Definition SetLayer (id : Z) (pc : PLOT_CONTROLLER) :=
  {| plot_options := plot_options pc; plot_layer := id;
     plot_file := plot_file pc |}.
Definition OpenPlotfile (suffix sheet : string) (pc : PLOT_CONTROLLER) :=
  {| plot_options := plot_options pc; plot_layer := plot_layer pc;
     plot_file := Some (suffix, sheet) |}.
Definition ClosePlot (pc : PLOT_CONTROLLER) :=
  {| plot_options := plot_options pc; plot_layer := plot_layer pc;
     plot_file := None |}.

(** Everything a plot depends on, besides the board. *)
Record plot_job := {
  job_params : gmap string param_value;
  job_layer : Z;
  job_sheet : string;
  job_title : string;      (* the title given to [set_title] *)
}.
End pcbnew.

(** What [pcbnew] and the system provide: the engine that draws a layer as
    a PDF document, the plot options of the board, the unit conversion, and
    the name [mkdtemp] makes up. *)
Class pcbnew `{PyFloat} := {
  plot_pdf : plot_job → pdf;
  GetPlotOptions : PCB_PLOT_PARAMS;
  FromMM : float → Z;
  mkdtemp : string → filesystem → string;
}.

Section generate_output.
Context `{PyFloat} `{!PyPDF2} `{GS} `{KiBot} `{!pcbnew}.

(** The plot the engine is asked for, with the controller as it is. *)
Definition job_of (title sheet : string) (pc : PLOT_CONTROLLER) : plot_job :=
  {| job_params := params (plot_options pc); job_layer := plot_layer pc;
     job_sheet := sheet; job_title := title |}.

(** [pc.PlotLayer()]: the engine writes the plot of the current layer to
    the open plot file, [<board>-<suffix>.pdf] in the output directory.
    It reports a failure by its return value, which is not looked at. *)
Definition PlotLayer (title : string) (pc : PLOT_CONTROLLER) : M unit :=
  λ fs,
    match plot_file pc with
    | None => (Ok (), fs)
    | Some (suffix, sheet) =>
        let path := posixpath.join (OutputDirectory (plot_options pc))
                      (pcb_basename +:+ "-" +:+ suffix +:+ ".pdf") in
        match write_pdf path (plot_pdf (job_of title sheet pc)) fs with
        | inl _ => (Ok (), fs)
        | inr fs' => (Ok (), fs')
        end
    end.

(** [shutil.rmtree] *)
Definition dir_prefix (d : string) : string :=
  if posixpath.endswith_sep d then d else d +:+ "/".

Definition under (d path : string) : bool := String.prefix (dir_prefix d) path.

Definition rmtree (d : string) : M unit :=
  λ fs,
    if bool_decide (d = "") then (Raise FileNotFoundError, fs)
    else (Ok (), FS (filter (λ kv, under d kv.1 = false) (files fs))
                    (readonly fs)).

(** A [for] loop with a loop-carried value. *)
Fixpoint foldM {A B} (f : B → A → M B) (b : B) (l : list A) : M B :=
  match l with
  | [] => ret b
  | a :: l' => let! b' := f b a in foldM f b' l'
  end.

(** The list of layers of a page; [config] has made sure there is one. *)
Definition page_layers (p : PagesOptions) : list LayerOptions :=
  default [] (layers p).

(** [self.set_title(p.title if p.title else self.title)] *)
Definition page_title (self : PCB_PrintOptions) (p : PagesOptions) : string :=
  if bool_decide (title p ≠ "") then title p else options_title self.

(** The plot options set for a page, before its layers are plotted. *)
Definition setup_page (p : PagesOptions) (pc : PLOT_CONTROLLER)
  : PLOT_CONTROLLER :=
  let pc := with_options (SetParam "PlotFrameRef" (PBool false)) pc in
  let pc := with_options (SetParam "Mirror" (PBool (mirror p))) pc in
  let pc := with_options (SetParam "Scale" (PFloat (scaling p))) pc in
  let pc := with_options (SetParam "Negative" (PBool (negative_plot p))) pc in
  let pc := with_options
              (SetParam "PlotViaOnMaskLayer" (PBool (negb (tent_vias p)))) pc in
  if ki5 then
    let pc := with_options
                (SetParam "LineWidth" (PInt (FromMM (line_width p)))) pc in
    with_options
      (SetParam "PlotPadsOnSilkLayer"
         (PBool (negb (exclude_pads_from_silkscreen p)))) pc
  else pc.

(** What is set for a layer, up to [pc.OpenPlotfile]. *)
Definition setup_layer (p : PagesOptions) (la : LayerOptions)
    (pc : PLOT_CONTROLLER) : PLOT_CONTROLLER :=
  let pc := with_options
              (SetParam "PlotReference" (PBool (plot_footprint_refs la))) pc in
  let pc := with_options
              (SetParam "PlotValue" (PBool (plot_footprint_values la))) pc in
  let pc := with_options
              (SetParam "PlotInvisibleText"
                 (PBool (force_plot_invisible_refs_vals la))) pc in
  let pc := SetLayer (_id la) pc in
  OpenPlotfile (suffix la) (sheet p) pc.

(** What is set for the frame, up to [pc.OpenPlotfile]. *)
Definition setup_frame (p : PagesOptions) (pc : PLOT_CONTROLLER)
  : PLOT_CONTROLLER :=
  let pc := with_options (SetParam "PlotFrameRef" (PBool true)) pc in
  let pc := with_options (SetParam "Scale" (PFloat (float_of_Z 1))) pc in
  let pc := SetLayer work_layer_id pc in
  OpenPlotfile "frame" (sheet p) pc.

(** The color of the frame of a page. *)
Definition frame_color (self : PCB_PrintOptions) (p : PagesOptions) : string :=
  if bool_decide (sheet_reference_color p ≠ "") then sheet_reference_color p
  else from_option pcb_frame "" (_color_theme self).

(** The body of [for n, p in enumerate(self.pages)]. *)
Definition generate_page (self : PCB_PrintOptions) (temp_dir : string)
    (state : PLOT_CONTROLLER * list string) (np : nat * PagesOptions)
  : M (PLOT_CONTROLLER * list string) :=
  let '(pc, pages) := state in
  let '(n, p) := np in
  let title := page_title self p in
  (* 1) Plot all layers to individual PDF files (B&W) *)
  let pc := setup_page p pc in
  let! pc :=
    foldM (λ pc la,
             let pc := setup_layer p la pc in
             do! PlotLayer title pc in
             ret pc)
          pc (page_layers p) in
  (* 2) Plot the frame using an empty layer and 1.0 scale *)
  let! pc :=
    (if plot_sheet_reference self then
       let pc := setup_frame p pc in
       do! PlotLayer title pc in
       ret pc
     else ret pc) in
  let pc := ClosePlot pc in
  (* 3) Apply the colors to the layer PDFs *)
  let! filelist :=
    foldM (λ filelist la,
             colorize_layer (suffix la) (color la) (monochrome p) filelist temp_dir)
          [] (page_layers p) in
  (* 4) Apply color to the frame *)
  let! filelist :=
    (if plot_sheet_reference self then
       colorize_layer "frame" (frame_color self p) (monochrome p) filelist temp_dir
     else ret filelist) in
  (* 5) Stack all layers in one file *)
  let assembly_file := pcb_basename +:+ "-" +:+ pretty n +:+ ".pdf" in
  do! merge_pdf temp_dir filelist temp_dir assembly_file in
  ret (pc, pages ++ [assembly_file]).

(** [self._drill_marks] as it is handed to [po.SetDrillMarksType]. *)
Definition drill_marks_param (self : PCB_PrintOptions) : param_value :=
  match _drill_marks self with
  | DrillCode code => PInt code
  | DrillName name => PStr name
  end.

(** The controller [generate_output] starts from: [PLOT_CONTROLLER(GS.board)]
    with the general options set. *)
Definition plot_controller (self : PCB_PrintOptions) (temp_dir : string)
  : PLOT_CONTROLLER :=
  (* Plot options *)
  let po := GetPlotOptions in
  let po := SetOutputDirectory temp_dir po in
  (* Set General Options: *)
  let po := SetParam "ExcludeEdgeLayer" (PBool true) po in
  let po := SetParam "UseAuxOrigin" (PBool false) po in
  let po := SetParam "AutoScale" (PBool false) po in
  let po := SetParam "DrillMarksType" (drill_marks_param self) po in
  {| plot_options := po; plot_layer := 0; plot_file := None |}.

Definition generate_output (self : PCB_PrintOptions) (output : string) : M unit :=
  λ fs,
    let temp_dir := mkdtemp "tmp-kibot-pcb_print-" fs in
    let pc := plot_controller self temp_dir in
    (* Generate the output *)
    match pages self with
    | None => (Raise TypeError, fs)    (* the class is not iterable *)
    | Some pgs =>
        (let! (_, pages) :=
           foldM (generate_page self temp_dir) (pc, [])
             (imap (λ n p, (n, p)) pgs) in
         (* Join all pages in one file *)
         do! create_pdf_from_pages temp_dir pages output in
         (* Remove the temporal files *)
         rmtree temp_dir) fs
    end.
End generate_output.

(** ** [out_blender_export.py] *)

Module blender_export.

(** What [json.dumps] is given. *)
#[warning="-register-all"]
Inductive json `{PyFloat} :=
  | JInt (n : Z)
  | JFloat (x : float)
  | JStr (s : string)
  | JBool (b : bool)
  | JArray (l : list json)
  | JObject (m : gmap string json).

(** An option that holds a dict or a list of dicts: still the class,
    one object, or a list. *)
Inductive one_or_many (A : Type) :=
  | Missing
  | One (a : A)
  | Many (l : list A).
Arguments Missing {A}.
Arguments One {A} a.
Arguments Many {A} l.

Section options.
Context `{PyFloat}.

(** How the PCB3D is imported. *)
Record PCB2BlenderOptions := {
  components : bool;
  cut_boards : bool;
  texture_dpi : float;
  center : bool;
  enhance_materials : bool;
  merge_materials : bool;
  solder_joints : string;
  stack_boards : bool;
}.

Definition PCB2BlenderOptions_default : PCB2BlenderOptions :=
  {| components := true; cut_boards := true; texture_dpi := float_of_Z 1016;
     center := true; enhance_materials := true; merge_materials := true;
     solder_joints := "SMART"; stack_boards := true |}.

(** What is generated. *)
Record BlenderOutputOptions := {
  type : string;
  output : string;
}.

(** A light in the scene. Currently also for the camera. *)
Record BlenderLightOptions := {
  name : string;
  pos_x : float;
  pos_y : float;
  pos_z : float;
}.

Definition BlenderLightOptions_set_name (n : string) (li : BlenderLightOptions) :=
  {| name := n; pos_x := pos_x li; pos_y := pos_y li; pos_z := pos_z li |}.

(** Render parameters. *)
Record BlenderRenderOptions := {
  samples : Z;
  resolution_x : Z;
  resolution_y : Z;
  transparent_background : bool;
  background1 : string;
  background2 : string;
}.

Definition BlenderRenderOptions_default : BlenderRenderOptions :=
  {| samples := 10; resolution_x := 1280; resolution_y := 720;
     transparent_background := false;
     background1 := "#66667F"; background2 := "#CCCCE5" |}.

(** [Blender_ExportOptions].  A member that can still hold its class is an
    [option] or a [one_or_many]. *)
Record Blender_ExportOptions := {
  pcb3d : string;
  pcb_import : option PCB2BlenderOptions;
  outputs : one_or_many BlenderOutputOptions;
  light : one_or_many BlenderLightOptions;
  add_default_light : bool;
  camera : option BlenderLightOptions;
  render_options : option BlenderRenderOptions;
  rotate_x : float;
  rotate_y : float;
  rotate_z : float;
  view : string;
  _expand_id : string;
  _expand_ext : string;
}.

Definition as_list {A} (x : one_or_many A) : list A :=
  match x with Missing => [] | One a => [a] | Many l => l end.

Definition _views : gmap string string :=
  {[ "top" := "z"; "bottom" := "Z"; "front" := "y"; "rear" := "Y";
     "right" := "x"; "left" := "X" ]}.

Definition _rviews : gmap string string :=
  {[ "z" := "top"; "Z" := "bottom"; "y" := "front"; "Y" := "rear";
     "x" := "right"; "X" := "left" ]}.

(** The [while name+'_'+str(id) in light_names] loop.  [n] bounds the
    number of iterations; one more than the size of the set is enough. *)
Fixpoint next_free_id (light_names : gset string) (name : string)
    (n id : nat) : nat :=
  match n with
  | O => id
  | S n' =>
      if bool_decide (name +:+ "_" +:+ pretty id ∈ light_names)
      then next_free_id light_names name n' (id + 1)
      else id
  end.

(** The body of [for li in self.light]: the set [light_names] is looked
    up, and is not changed. *)
Definition check_light_name (light_names : gset string)
    (li : BlenderLightOptions) : BlenderLightOptions :=
  let name' := if bool_decide (name li ≠ "") then name li else "kibot_light" in
  let name' :=
    if bool_decide (name' ∈ light_names) then
      let id := next_free_id light_names name' (S (size light_names)) 2 in
      name' +:+ "_" +:+ pretty id
    else name' in
  BlenderLightOptions_set_name name' li.

(** Check light names. *)
Definition check_light_names (lights : list BlenderLightOptions)
  : list BlenderLightOptions :=
  let light_names : gset string := ∅ in
  foldl (λ done li, done ++ [check_light_name light_names li]) [] lights.

(** [Blender_ExportOptions.config], after [super().config]; [size] is the
    third component of [get_board_size()]. *)
Definition config (size : float) (self : Blender_ExportOptions)
  : result Blender_ExportOptions :=
  (* Check we at least have a name for the source output *)
  if bool_decide (pcb3d self = "") then
    Raise (KiPlotConfigurationError
             "You must specify the name of the output that generates the PCB3D file")
  else
  (* Do we have outputs? *)
  match outputs self with
  | Missing =>
      Raise (KiPlotConfigurationError "You must specify at least one output")
  | outputs' =>
      let outputs' := Many (as_list outputs') in
      (* Ensure we have import options *)
      let pcb_import' := Some (default PCB2BlenderOptions_default (pcb_import self)) in
      (* Ensure we have a light *)
      let light' :=
        match light self with
        | Missing =>
            if add_default_light self then
              [ {| name := "kibot_light";
                   pos_x := float_mul (float_neg size) (float_lit 3.33);
                   pos_y := float_mul size (float_lit 3.33);
                   pos_z := float_mul size (float_lit 5.0) |} ]
            else []
        | One li => [li]
        | Many l => l
        end in
      (* Check light names *)
      let light' := check_light_names light' in
      (* If no camera let the script create one *)
      let camera' :=
        match camera self with
        | None => None
        | Some c =>
            Some (if bool_decide (name c = "")
                  then BlenderLightOptions_set_name "kibot_camera" c else c)
        end in
      (* Ensure we have some render options *)
      let render_options' :=
        Some (default BlenderRenderOptions_default (render_options self)) in
      (* View point *)
      let view' := default (view self) (_views !! view self) in
      match _rviews !! view' with
      | None => Raise TypeError
      | Some rview =>
          Ok {| pcb3d := pcb3d self; pcb_import := pcb_import';
                outputs := outputs'; light := Many light';
                add_default_light := add_default_light self;
                camera := camera'; render_options := render_options';
                rotate_x := rotate_x self; rotate_y := rotate_y self;
                rotate_z := rotate_z self; view := view';
                _expand_id := _expand_id self +:+ "_" +:+ rview;
                _expand_ext := _expand_ext self |}
      end
  end.

End options.
(** The state [run] works on: the text files on disk, the outputs that
    have been run ([_done]), and the commands handed to [run_command]. *)
Record world := {
  disk : gmap string string;
  outputs_done : gset string;
  commands : list (list string);
}.

(** The parts of KiBot and of the system [run] calls. *)
Class kiplot `{PyFloat} := {
  ensure_tool : string → string;
  (* targets, output directory and name of an output *)
  get_output_targets : string → list string * string * string;
  run_output : string → world → world;
  (* [self._parent.expand_filename], with the [_expand_id] and
     [_expand_ext] it reads *)
  expand_filename : string → string → string → string → string;
  parent_output_dir : string;
  (* [os.path.dirname(__file__)] *)
  module_dir : string;
  (* the name [NamedTemporaryFile] makes up, with the suffix *)
  NamedTemporaryFile : string → world → string;
  (* [json.dumps(_, sort_keys=True, indent=2)] *)
  json_dumps : json → string;
}.

Section run.
Context `{PyFloat} `{!kiplot}.

Definition get_output_filename (self : Blender_ExportOptions)
    (o : BlenderOutputOptions) (output_dir : string) : string :=
  let _expand_ext :=
    if bool_decide (type o = "render") then "png"
    else if bool_decide (type o = "blender") then "blend"
    else type o in
  expand_filename (_expand_id self) _expand_ext output_dir (output o).

Definition light_json (li : BlenderLightOptions) : json :=
  JObject {[ "name" := JStr (name li);
             "position" := JArray [JFloat (pos_x li); JFloat (pos_y li);
                                   JFloat (pos_z li)] ]}.

Definition is_nonzero (x : float) : bool := negb (float_eqb x (float_of_Z 0)).

(** Create a JSON with the scene information. *)
Definition scene_of (self : Blender_ExportOptions) : gmap string json :=
  let scene : gmap string json := ∅ in
  let scene :=
    if bool_decide (as_list (light self) ≠ []) then
      <["lights" := JArray (light_json <$> as_list (light self))]> scene
    else scene in
  let scene :=
    match camera self with
    | Some c => <["camera" := light_json c]> scene
    | None => scene
    end in
  let ro := default BlenderRenderOptions_default (render_options self) in
  let scene :=
    <["render" :=
        JObject {[ "samples" := JInt (samples ro);
                   "resolution_x" := JInt (resolution_x ro);
                   "resolution_y" := JInt (resolution_y ro);
                   "transparent_background" := JBool (transparent_background ro);
                   "background1" := JStr (background1 ro);
                   "background2" := JStr (background2 ro) ]}]> scene in
  let scene :=
    if is_nonzero (rotate_x self)
    then <["rotate_x" := JFloat (float_neg (rotate_x self))]> scene else scene in
  let scene :=
    if is_nonzero (rotate_y self)
    then <["rotate_y" := JFloat (float_neg (rotate_y self))]> scene else scene in
  let scene :=
    if is_nonzero (rotate_z self)
    then <["rotate_z" := JFloat (float_neg (rotate_z self))]> scene else scene in
  if bool_decide (view self ≠ "") then <["view" := JStr (view self)]> scene
  else scene.

(** Create the command line. *)
Definition command_line (self : Blender_ExportOptions)
    (command f_name pcb3d_file : string) : list string :=
  let script :=
    posixpath.join (posixpath.join module_dir "blender_scripts")
      "blender_export.py" in
  let cmd := [command; "-b"; "--factory-startup"; "-P"; script; "--"] in
  let pi := default PCB2BlenderOptions_default (pcb_import self) in
  let cmd := if negb (components pi) then cmd ++ ["--no_components"] else cmd in
  let cmd := if negb (cut_boards pi) then cmd ++ ["--dont_cut_boards"] else cmd in
  let cmd :=
    if negb (float_eqb (texture_dpi pi) (float_of_Z 1016))
    then cmd ++ ["--texture_dpi"; float_str (texture_dpi pi)] else cmd in
  let cmd := if negb (center pi) then cmd ++ ["--dont_center"] else cmd in
  let cmd :=
    if negb (enhance_materials pi) then cmd ++ ["--dont_enhance_materials"]
    else cmd in
  let cmd :=
    if negb (merge_materials pi) then cmd ++ ["--dont_merge_materials"]
    else cmd in
  let cmd :=
    if bool_decide (solder_joints pi ≠ "SMART")
    then cmd ++ ["--solder_joints"; solder_joints pi] else cmd in
  let cmd := if negb (stack_boards pi) then cmd ++ ["--dont_stack_boards"] else cmd in
  let cmd := cmd ++ ["--format"] in
  let cmd := cmd ++ (type <$> as_list (outputs self)) in
  let cmd := cmd ++ ["--output"] in
  let cmd :=
    foldl (λ cmd o, cmd ++ [get_output_filename self o parent_output_dir])
      cmd (as_list (outputs self)) in
  let cmd := cmd ++ ["--scene"; f_name] in
  cmd ++ [pcb3d_file].

(** [run_command(cmd)]: the command is handed to the system. *)
Definition run_command (cmd : list string) (w : world) : world :=
  {| disk := disk w; outputs_done := outputs_done w;
     commands := commands w ++ [cmd] |}.

Definition write_text (path text : string) (w : world) : world :=
  {| disk := <[path := text]> (disk w); outputs_done := outputs_done w;
     commands := commands w |}.

Definition unlink (path : string) (w : world) : world :=
  {| disk := delete path (disk w); outputs_done := outputs_done w;
     commands := commands w |}.

(** [Blender_ExportOptions.run], on a configured object. *)
Definition run (self : Blender_ExportOptions) (w : world)
  : result unit * world :=
  let command := ensure_tool "Blender" in
  let '(pcb3d_targets, pcb3d_out_dir, pcb3d_out) :=
    get_output_targets (pcb3d self) in
  match pcb3d_targets !! 0%nat with
  | None => (Raise IndexError, w)
  | Some pcb3d_file =>
      let w :=
        if bool_decide (pcb3d_out ∉ outputs_done w) then run_output pcb3d_out w
        else w in
      if bool_decide (disk w !! pcb3d_file = None) then
        (Raise (KiPlotConfigurationError ("Missing " +:+ pcb3d_file)), w)
      else
        (* with NamedTemporaryFile(mode='w', suffix='.json') as f *)
        let f_name := NamedTemporaryFile ".json" w in
        let text := json_dumps (JObject (scene_of self)) in
        let w := write_text f_name text w in
        let cmd := command_line self command f_name pcb3d_file in
        (* Execute the command *)
        let w := run_command cmd w in
        (* the temporary file goes away with the [with] block *)
        (Ok (), unlink f_name w)
  end.

End run.
End blender_export.

(** * Specifications *)

(** What the properties below are stated with: the intended effect of
    each step, written without the file system and the loops. *)

Section specification.
Context `{PyFloat} `{!PyPDF2} `{GS} `{KiBot} `{!pcbnew}.

(** What [colorize_pdf] is meant to do to one operation: a black fill or
    stroke color gets the operands of the new color, anything else stays. *)
Definition recolor (color : color3) (op : operation) : operation :=
  if is_rg op.2 && operands_eq_000 op.1
  then ([FloatObject color.1.1; FloatObject color.1.2; FloatObject color.2], op.2)
  else op.

(** The first page of a file of a folder, if the file is there and has a
    page. *)
Definition first_page (fs : filesystem) (folder filename : string)
  : option page :=
  files fs !! posixpath.join folder filename ≫= (.!! 0%nat).

Definition recolor_page (color : color3) (p : page) : page :=
  Page (recolor color <$> Contents p) (page_dict p).









(** [m] leaves the files outside of directory [d] and the permissions as
    they are, and a value it returns satisfies [post]. *)
Definition confined {A} (d : string) (post : A → Prop) (m : M A) : Prop :=
  ∀ fs, readonly (m fs).2 = readonly fs
        ∧ (∀ path, under d path = false →
                   files (m fs).2 !! path = files fs !! path)
        ∧ (∀ a, (m fs).1 = Ok a → post a).

(** The names of the intermediate files. *)
Definition plot_name (suffix : string) : string :=
  pcb_basename +:+ "-" +:+ suffix +:+ ".pdf".
Definition colored_name (suffix : string) : string :=
  pcb_basename +:+ "-" +:+ suffix +:+ "-colored.pdf".
Definition assembly_name (n : nat) : string :=
  pcb_basename +:+ "-" +:+ pretty n +:+ ".pdf".

(** What is plotted for a page, as (suffix, color): its layers, then the
    frame if it is wanted. *)
Definition page_items (self : PCB_PrintOptions) (p : PagesOptions)
  : list (string * string) :=
  ((λ la, (suffix la, color la)) <$> page_layers p)
  ++ (if plot_sheet_reference self then [("frame", frame_color self p)] else []).

(** The file that stands for an item in the merge. *)
Definition final_name (item : string * string) : string :=
  if bool_decide (item.2 ≠ "#000000") then colored_name item.1
  else plot_name item.1.

(** The files made for a page before the merge. *)
Definition page_files (self : PCB_PrintOptions) (p : PagesOptions)
  : list string :=
  (plot_name ∘ fst <$> page_items self p)
  ++ (colored_name ∘ fst
        <$> filter (λ item, item.2 ≠ "#000000") (page_items self p)).

(** No two files of a page have the same name, and none has the name of
    the merged file of a page. *)
Definition names_ok (self : PCB_PrintOptions) (pgs : list PagesOptions) : Prop :=
  Forall (λ p, NoDup (page_files self p)
               ∧ Forall (λ n, assembly_name n ∉ page_files self p)
                   (seq 0 (length pgs))) pgs.

(** The controller after the layers [las] of page [p] have been plotted,
    and the plots. *)
Definition after_layers (p : PagesOptions) (pc : PLOT_CONTROLLER)
    (las : list LayerOptions) : PLOT_CONTROLLER :=
  foldl (λ pc la, setup_layer p la pc) pc las.

Fixpoint layer_plots (title : string) (p : PagesOptions) (pc : PLOT_CONTROLLER)
    (las : list LayerOptions) : list pdf :=
  match las with
  | [] => []
  | la :: las' =>
      let pc' := setup_layer p la pc in
      plot_pdf (job_of title (sheet p) pc') :: layer_plots title p pc' las'
  end.

(** The plots of a page, one per item, from the controller [pc] the page
    starts with; and the controller it ends with. *)
Definition page_plots (self : PCB_PrintOptions) (p : PagesOptions)
    (pc : PLOT_CONTROLLER) : list pdf :=
  let pc1 := setup_page p pc in
  layer_plots (page_title self p) p pc1 (page_layers p)
  ++ (if plot_sheet_reference self then
        [plot_pdf (job_of (page_title self p) (sheet p)
                     (setup_frame p (after_layers p pc1 (page_layers p))))]
      else []).

Definition page_controller (self : PCB_PrintOptions) (p : PagesOptions)
    (pc : PLOT_CONTROLLER) : PLOT_CONTROLLER :=
  let pc2 := after_layers p (setup_page p pc) (page_layers p) in
  ClosePlot (if plot_sheet_reference self then setup_frame p pc2 else pc2).

(** A plot with its black replaced by the color, if the color is one. *)
Definition colored (monochrome : bool) (color : string) (doc : pdf)
  : option pdf :=
  if bool_decide (color ≠ "#000000") then
    match hex_to_rgb color with
    | Ok (rgb, _) =>
        Some (recolor_page (if monochrome then to_gray rgb else rgb) <$> doc)
    | Raise _ => None
    end
  else Some doc.

(** The page made of the first pages of the documents, the later ones
    merged onto the first in order. *)
Definition merged (docs : list pdf) : option page :=
  firsts ← mapM (.!! 0%nat) docs;
  match firsts with
  | [] => None
  | p0 :: ps => Some (foldl mergePage p0 ps)
  end.

(** The page of the output document for page [p] of the configuration. *)
Definition assemble_page (self : PCB_PrintOptions) (p : PagesOptions)
    (pc : PLOT_CONTROLLER) : option page :=
  docs ← mapM (λ job, colored (monochrome p) job.1.2 job.2)
            (zip (page_items self p) (page_plots self p pc));
  merged docs.

Fixpoint assemble (self : PCB_PrintOptions) (pc : PLOT_CONTROLLER)
    (pgs : list PagesOptions) : option (list page) :=
  match pgs with
  | [] => Some []
  | p :: pgs' =>
      pg ← assemble_page self p pc;
      rest ← assemble self (page_controller self p pc) pgs';
      Some (pg :: rest)
  end.

(** The paths of the plots of the items, and of the colored files of those
    whose color is not black. *)
Definition plot_paths (d : string) (items : list (string * string))
  : list string :=
  posixpath.join d ∘ plot_name ∘ fst <$> items.

Definition colored_paths (d : string) (items : list (string * string))
  : list string :=
  posixpath.join d ∘ colored_name ∘ fst
    <$> filter (λ item, item.2 ≠ "#000000") items.

End specification.

Section blender_specification.
Import blender_export.
Context `{PyFloat} `{!kiplot}.



(** The state in which [run] looks for the PCB3D file: the output that
    makes it has been run, if it had not been. *)
Definition after_pcb3d (pcb3d_out : string) (w : world) : world :=
  if bool_decide (pcb3d_out ∈ outputs_done w) then w else run_output pcb3d_out w.

(** The twelve values of [view]: the six names and the six letters. *)
Definition view_names : list string :=
  ["top"; "bottom"; "front"; "rear"; "right"; "left";
   "z"; "Z"; "y"; "Y"; "x"; "X"].

End blender_specification.

(** * The model on a small board *)

(** A PDF library for the examples: merging puts the content of the second
    page after that of the first. *)
Definition example_PyPDF2 : @PyPDF2 Q_PyFloat := {|
  mergePage p q := Page (Contents p ++ Contents q) (page_dict p);
  compressContentStreams p := p;
|}.

Definition example_GS : GS := {|
  pcb_basename := "board";
  ki5 := false;
  work_layer_id := 100;
|}.

Definition example_theme : color_theme_t := {|
  layer_id2color := {[ 0 := "#C83434"; 31 := "#4D7FC4" ]};
  pcb_frame := "#840000";
|}.

(** Colors are [#rrggbb] or [#rrggbbaa]. *)
Definition example_color_is_valid (value : string) : bool :=
  match value with
  | String "#"%char digits =>
      (bool_decide (String.length digits = 6%nat)
       || bool_decide (String.length digits = 8%nat))
      && forallb (λ c, bool_decide (is_Some (hex_digit c)))
           (String.list_ascii_of_string digits)
  | _ => false
  end.

Definition example_KiBot : KiBot := {|
  color_is_valid := example_color_is_valid;
  Layer_config la :=
    if bool_decide (layer la = "") then inl "Missing or empty `layer` attribute"
    else inr la;
  Layer_solve := inr;
  load_color_theme name_ :=
    if bool_decide (name_ = "_builtin_classic") then Some example_theme else None;
|}.

(** An engine for the examples: a plot is one page, which draws in black
    and names its layer. *)
Definition example_pcbnew : @pcbnew Q_PyFloat := {|
  plot_pdf job :=
    [Page [([NumberObject 0; NumberObject 0; NumberObject 0], "rg");
           ([NumberObject (job_layer job)], "Do")]
          (job_sheet job)];
  GetPlotOptions := {| OutputDirectory := ""; params := ∅ |};
  FromMM := (λ x : Q, Qnum x * 1000000 / Zpos (Qden x)) : @float Q_PyFloat → Z;
  mkdtemp prefix _ := "/tmp/" +:+ prefix +:+ "k1b0t";
|}.

Definition example_layer (layer_ suffix_ : string) (id : Z) (color_ : string)
  : LayerOptions :=
  {| layer := layer_; suffix := suffix_; _id := id; color := color_;
     plot_footprint_refs := true; plot_footprint_values := true;
     force_plot_invisible_refs_vals := false |}.

Definition example_page (monochrome_ : bool)
    (layers_ : option (list LayerOptions)) : @PagesOptions Q_PyFloat :=
  {| mirror := false; monochrome := monochrome_; scaling := (1%Q : @float Q_PyFloat);
     title := ""; sheet := "Assembly"; sheet_reference_color := "";
     line_width := (0.1%Q : @float Q_PyFloat); negative_plot := false;
     exclude_pads_from_silkscreen := false; tent_vias := true;
     layers := layers_ |}.

Definition example_options (pages_ : option (list (@PagesOptions Q_PyFloat)))
  : @PCB_PrintOptions Q_PyFloat :=
  {| output := "%f-%i%v.%x"; hide_excluded := false;
     _drill_marks := DrillName "full"; color_theme := "_builtin_classic";
     _color_theme := None; plot_sheet_reference := true;
     pages := pages_; options_title := "" |}.

(** Two pages: the front copper in color over the black silk screen, and
    the back copper in gray. *)
Definition example_pages : list (@PagesOptions Q_PyFloat) :=
  [ example_page false
      (Some [example_layer "F.Cu" "F_Cu" 0 "#C83434";
             example_layer "F.SilkS" "F_SilkS" 37 "#000000"]);
    example_page true (Some [example_layer "B.Cu" "B_Cu" 31 "#4D7FC4"]) ].

Definition example_configured : @PCB_PrintOptions Q_PyFloat :=
  {| output := "%f-%i%v.%x"; hide_excluded := false;
     _drill_marks := DrillCode 2; color_theme := "_builtin_classic";
     _color_theme := Some example_theme; plot_sheet_reference := true;
     pages := Some example_pages; options_title := "" |}.

Definition empty_fs : @filesystem Q_PyFloat := FS ∅ ∅.

(** A file of two pages with a black fill, a red stroke and a path. *)
Definition example_pdf : list (@page Q_PyFloat) :=
  [ Page [([NumberObject 0; FloatObject (0%Q : @float Q_PyFloat); NumberObject 0], "rg");
          ([NumberObject 1; NumberObject 0; NumberObject 0], "RG");
          ([NumberObject 10; NumberObject 20], "m")] "first";
    Page [([NumberObject 0; NumberObject 0; NumberObject 0], "RG");
          ([NumberObject 0; NumberObject 0], "rg")] "second" ].

(** The document expected for the small board: the front copper in its
    color, the black silk screen and the frame in the color of the theme
    on the first page; the back copper and the frame in gray on the
    second. *)
Definition example_document : list (@page Q_PyFloat) :=
  [ Page [([@FloatObject Q_PyFloat (200 # 255 )%Q; @FloatObject Q_PyFloat (52 # 255 )%Q;
            @FloatObject Q_PyFloat (52 # 255 )%Q], "rg");
          ([NumberObject 0], "Do");
          ([NumberObject 0; NumberObject 0; NumberObject 0], "rg");
          ([NumberObject 37], "Do");
          ([@FloatObject Q_PyFloat (132 # 255 )%Q; @FloatObject Q_PyFloat (0 # 255 )%Q;
            @FloatObject Q_PyFloat (0 # 255 )%Q], "rg");
          ([NumberObject 100], "Do")] "Assembly";
    Page [([@FloatObject Q_PyFloat (26010000 # 49744125 )%Q;
            @FloatObject Q_PyFloat (26010000 # 49744125 )%Q;
            @FloatObject Q_PyFloat (26010000 # 49744125 )%Q], "rg");
          ([NumberObject 31], "Do");
          ([@FloatObject Q_PyFloat (8583300 # 49744125 )%Q;
            @FloatObject Q_PyFloat (8583300 # 49744125 )%Q;
            @FloatObject Q_PyFloat (8583300 # 49744125 )%Q], "rg");
          ([NumberObject 100], "Do")] "Assembly" ].

(** The Blender side of the examples. *)
Definition example_pcb3d_file (out : string) : string := "/out/" +:+ out +:+ ".pcb3d".

(** The output "broken" makes no file when it is run. *)
Definition example_kiplot : @blender_export.kiplot Q_PyFloat := {|
  blender_export.ensure_tool _ := "/usr/bin/blender";
  blender_export.get_output_targets out := ([example_pcb3d_file out], "/out", out);
  blender_export.run_output out w :=
    {| blender_export.disk :=
         if bool_decide (out = "broken") then blender_export.disk w
         else <[example_pcb3d_file out := "PCB3D"]> (blender_export.disk w);
       blender_export.outputs_done := {[out]} ∪ blender_export.outputs_done w;
       blender_export.commands := blender_export.commands w |};
  blender_export.expand_filename id ext dir _ :=
    dir +:+ "/board-" +:+ id +:+ "." +:+ ext;
  blender_export.parent_output_dir := "/out";
  blender_export.module_dir := "/usr/lib/kibot";
  blender_export.NamedTemporaryFile suffix_ _ := "/tmp/tmpscene" +:+ suffix_;
  blender_export.json_dumps j :=
    match j with
    | blender_export.JObject m => String.concat "," (map_to_list m).*1
    | _ => ""
    end;
|}.

Definition example_light (name_ : string) : @blender_export.BlenderLightOptions Q_PyFloat :=
  {| blender_export.name := name_;
     blender_export.pos_x := (1%Q : @float Q_PyFloat);
     blender_export.pos_y := (2%Q : @float Q_PyFloat);
     blender_export.pos_z := (3%Q : @float Q_PyFloat) |}.

Definition example_export (pcb3d_ : string)
    (lights : list (@blender_export.BlenderLightOptions Q_PyFloat))
  : @blender_export.Blender_ExportOptions Q_PyFloat :=
  {| blender_export.pcb3d := pcb3d_;
     blender_export.pcb_import :=
       Some {| blender_export.components := false;
               blender_export.cut_boards := true;
               blender_export.texture_dpi := (508%Q : @float Q_PyFloat);
               blender_export.center := true;
               blender_export.enhance_materials := true;
               blender_export.merge_materials := true;
               blender_export.solder_joints := "ALL";
               blender_export.stack_boards := true |};
     blender_export.outputs :=
       blender_export.Many
         [ {| blender_export.type := "render"; blender_export.output := "%f-%i%v.%x" |};
           {| blender_export.type := "stl"; blender_export.output := "%f-%i%v.%x" |} ];
     blender_export.light := blender_export.Many lights;
     blender_export.add_default_light := true;
     blender_export.camera := None;
     blender_export.render_options := None;
     blender_export.rotate_x := (30%Q : @float Q_PyFloat);
     blender_export.rotate_y := (0%Q : @float Q_PyFloat);
     blender_export.rotate_z := (0%Q : @float Q_PyFloat);
     blender_export.view := "z";
     blender_export._expand_id := "3D_blender_top";
     blender_export._expand_ext := "" |}.

Definition empty_world : blender_export.world :=
  {| blender_export.disk := ∅; blender_export.outputs_done := ∅;
     blender_export.commands := [] |}.

(** * Properties *)

Section pcb_print_properties.
Context `{PyFloat} `{!PyPDF2} `{GS}.

(** The in-place loop, started at index [length done] on a list whose
    first part is already processed, rewrites exactly the rest. *)
Lemma operations_loop_app color (todo done : list operation) :
  operations_loop color (length todo) (length done) (done ++ todo)
  = done ++ (recolor color <$> todo).
Proof.
  revert done. induction todo as [|[operands operator] todo IH]; intros done.
  - done.
  - cbn [length operations_loop].
    rewrite lookup_app_r, Nat.sub_diag by lia. cbn [lookup list_lookup from_option snd].
    assert (Hnext : ∀ op' : operation,
               operations_loop color (length todo) (S (length done))
                 (done ++ op' :: todo)
               = done ++ op' :: (recolor color <$> todo)).
    { intros op'. specialize (IH (done ++ [op'])).
      rewrite length_app, Nat.add_1_r, <- !app_assoc in IH. exact IH. }
    rewrite fmap_cons. unfold recolor at 1. cbn [fst snd].
    destruct (is_rg operator); cbn [andb]; [|apply Hnext].
    destruct (operands_eq_000 operands); [|apply Hnext].
    rewrite insert_app_r_alt, Nat.sub_diag by done. apply Hnext.
Qed.

Lemma colorize_page_recolor color p :
  colorize_page color p = recolor_page color p.
Proof.
  unfold colorize_page, recolor_page. f_equal.
  exact (operations_loop_app color (Contents p) []).
Qed.

Lemma pages_loop_app color (todo done : pdf) (output : pdf) :
  foldl (λ output n,
           match (done ++ todo) !! n with
           | Some p => output ++ [colorize_page color p]
           | None => output
           end) output (seq (length done) (length todo))
  = output ++ (colorize_page color <$> todo).
Proof.
  revert done output. induction todo as [|p todo IH]; intros done output.
  - simpl. symmetry. apply app_nil_r.
  - cbn [length seq foldl].
    rewrite lookup_app_r, Nat.sub_diag by lia. cbn [lookup list_lookup].
    replace (done ++ p :: todo) with ((done ++ [p]) ++ todo)
      by (by rewrite <- app_assoc).
    replace (S (length done)) with (length (done ++ [p]))
      by (rewrite length_app; simpl; lia).
    rewrite IH, <- app_assoc. done.
Qed.

Lemma pages_loop_map color source :
  pages_loop color source = recolor_page color <$> source.
Proof.
  unfold pages_loop. etrans; [exact (pages_loop_app color source [] [])|].
  simpl. apply list_fmap_ext. intros _ p _. apply colorize_page_recolor.
Qed.

Lemma colorize_pdf_ok folder in_file out_file color fs source :
  files fs !! posixpath.join folder in_file = Some source →
  posixpath.join folder out_file ∉ readonly fs →
  colorize_pdf folder in_file out_file color fs
  = (Ok (), FS (<[posixpath.join folder out_file :=
                    recolor_page color <$> source]> (files fs))
               (readonly fs)).
Proof.
  intros Hin Hout. unfold colorize_pdf, read_pdf, write_pdf.
  rewrite Hin, bool_decide_eq_false_2 by done.
  by rewrite pages_loop_map.
Qed.

(** C1. [colorize_pdf] reads every page of the input file, replaces in
    its content stream the operands of each [rg]/[RG] operator whose
    operands are [0 0 0] by the three components of the color, leaves all
    other operations as they are, and writes the pages to the output
    file.  (The input file is still open when the output is written, so
    the two are taken to be different files.) *)
Theorem colorize_pdf_recolors_black folder in_file out_file color fs source :
  files fs !! posixpath.join folder in_file = Some source →
  posixpath.join folder out_file ∉ readonly fs →
  posixpath.join folder out_file ≠ posixpath.join folder in_file →
  colorize_pdf folder in_file out_file color fs
  = (Ok (), FS (<[posixpath.join folder out_file :=
                    (λ p, Page (recolor color <$> Contents p) (page_dict p))
                      <$> source]> (files fs))
               (readonly fs))
  ∧ ∀ op, recolor color op
          = if is_rg op.2 && operands_eq_000 op.1
            then ([FloatObject color.1.1; FloatObject color.1.2;
                   FloatObject color.2], op.2)
            else op.
Proof.
  intros Hin Hout _. split; [|done]. by apply colorize_pdf_ok.
Qed.

(** ** Coloring a layer *)

(** C4. For a layer whose color is not "#000000", [colorize_layer]
    decodes the color with [hex_to_rgb] and has [colorize_pdf] replace the
    black of the layer's PDF by it, or, on a monochrome page, by the gray
    whose three components are the average of the three decoded ones; the
    name of the colored file is appended to the file list. *)
Theorem colorize_layer_colored
    suffix color monochrome filelist temp_dir fs source r g b alpha :
  let in_file := pcb_basename +:+ "-" +:+ suffix +:+ ".pdf" in
  let out_file := pcb_basename +:+ "-" +:+ suffix +:+ "-colored.pdf" in
  let avg := float_div (float_add (float_add r g) b) (float_of_Z 3) in
  color ≠ "#000000" →
  hex_to_rgb color = Ok ((r, g, b), alpha) →
  files fs !! posixpath.join temp_dir in_file = Some source →
  posixpath.join temp_dir out_file ∉ readonly fs →
  colorize_layer suffix color monochrome filelist temp_dir fs
  = (Ok (filelist ++ [out_file]),
     FS (<[posixpath.join temp_dir out_file :=
            recolor_page (if monochrome then (avg, avg, avg) else (r, g, b))
              <$> source]> (files fs))
        (readonly fs)).
Proof.
  intros in_file out_file avg Hcolor Hrgb Hin Hout. unfold colorize_layer.
  rewrite bool_decide_eq_true_2, Hrgb by done. unfold bind, ret.
  fold in_file out_file.
  rewrite (colorize_pdf_ok _ _ _ _ _ _ Hin Hout).
  by destruct monochrome.
Qed.

(** ** Merging and stacking *)

(** Once a first page has been read, the loop of [merge_pdf] merges the
    first pages of the remaining files onto it, in order. *)
Lemma merge_pdf_loop_merged input_folder input_files fs ps :
  mapM (first_page fs input_folder) input_files = Some ps →
  ∀ i merged, i ≠ 0%nat →
  merge_pdf_loop input_folder input_files i (Some merged) fs
  = Ok (Some (foldl mergePage merged ps)).
Proof.
  intros Hps%mapM_Some. induction Hps as [|filename p input_files ps Hp _ IH];
    intros i merged Hi; [done|].
  unfold first_page in Hp. cbn [merge_pdf_loop]. unfold read_pdf.
  destruct (files fs !! posixpath.join input_folder filename) as [d|]; [|done].
  simpl in Hp. rewrite Hp, bool_decide_eq_false_2 by done.
  apply IH. lia.
Qed.

Lemma merge_pdf_loop_first input_folder input_files fs p0 ps :
  mapM (first_page fs input_folder) input_files = Some (p0 :: ps) →
  merge_pdf_loop input_folder input_files 0 None fs
  = Ok (Some (foldl mergePage p0 ps)).
Proof.
  intros Hps%mapM_Some. inversion Hps as [|filename ? input_files' ? Hp Hrest]; subst.
  unfold first_page in Hp. cbn [merge_pdf_loop]. unfold read_pdf.
  destruct (files fs !! posixpath.join input_folder filename) as [d|]; [|done].
  simpl in Hp. rewrite Hp, bool_decide_eq_true_2 by done.
  apply merge_pdf_loop_merged; [by apply mapM_Some|done].
Qed.

Lemma merge_pdf_ok input_folder input_files output_folder output_file fs p0 ps :
  mapM (first_page fs input_folder) input_files = Some (p0 :: ps) →
  posixpath.join output_folder output_file ∉ readonly fs →
  merge_pdf input_folder input_files output_folder output_file fs
  = (Ok (), FS (<[posixpath.join output_folder output_file :=
                    [foldl mergePage p0 ps]]> (files fs)) (readonly fs)).
Proof.
  intros Hps Hout. unfold merge_pdf, write_pdf.
  by rewrite (merge_pdf_loop_first _ _ _ _ _ Hps), bool_decide_eq_false_2.
Qed.

Lemma create_pdf_from_pages_loop_ok input_folder input_files fs ps :
  mapM (first_page fs input_folder) input_files = Some ps →
  ∀ output,
  create_pdf_from_pages_loop input_folder input_files output fs
  = Ok (output ++ (compressContentStreams <$> ps)).
Proof.
  intros Hps%mapM_Some. induction Hps as [|filename p input_files ps Hp _ IH];
    intros output; [by rewrite app_nil_r|].
  unfold first_page in Hp. cbn [create_pdf_from_pages_loop]. unfold read_pdf.
  destruct (files fs !! posixpath.join input_folder filename) as [d|]; [|done].
  simpl in Hp. rewrite Hp, IH, <- app_assoc. done.
Qed.

Lemma create_pdf_from_pages_ok input_folder input_files output_fn fs ps :
  mapM (first_page fs input_folder) input_files = Some ps →
  output_fn ∉ readonly fs →
  create_pdf_from_pages input_folder input_files output_fn fs
  = (Ok (), FS (<[output_fn := compressContentStreams <$> ps]> (files fs))
               (readonly fs)).
Proof.
  intros Hps Hout. unfold create_pdf_from_pages, write_pdf.
  by rewrite (create_pdf_from_pages_loop_ok _ _ _ _ Hps), bool_decide_eq_false_2.
Qed.

(** C3. [merge_pdf] writes a document of exactly one page: the first page
    of the first file, onto which the first pages of the other files have
    been merged in list order.  [create_pdf_from_pages] writes a document
    with one page per input file, the first page of each (with its content
    streams compressed), in list order.  (The input files are still open
    when the output is written, so the output is taken not to be one of
    them.) *)
Theorem merge_pdf_and_create_pdf_from_pages
    input_folder input_files output_folder output_file fs p0 ps
    pages_folder page_files output_fn pages :
  mapM (first_page fs input_folder) input_files = Some (p0 :: ps) →
  posixpath.join output_folder output_file ∉ readonly fs →
  posixpath.join output_folder output_file
    ∉ posixpath.join input_folder <$> input_files →
  mapM (first_page fs pages_folder) page_files = Some pages →
  output_fn ∉ readonly fs →
  output_fn ∉ posixpath.join pages_folder <$> page_files →
  merge_pdf input_folder input_files output_folder output_file fs
  = (Ok (), FS (<[posixpath.join output_folder output_file :=
                    [foldl mergePage p0 ps]]> (files fs)) (readonly fs))
  ∧ create_pdf_from_pages pages_folder page_files output_fn fs
    = (Ok (), FS (<[output_fn := compressContentStreams <$> pages]> (files fs))
                 (readonly fs)).
Proof.
  intros Hps Hout _ Hpages Hfn _. split.
  - by apply merge_pdf_ok.
  - by apply create_pdf_from_pages_ok.
Qed.

(** With a page already merged, the loop never leaves [merged_page]
    unbound. *)
Lemma merge_pdf_loop_bound input_folder input_files fs :
  ∀ i merged, i ≠ 0%nat →
  match merge_pdf_loop input_folder input_files i (Some merged) fs with
  | Ok None | Raise (UnboundLocalError _) => False
  | _ => True
  end.
Proof.
  induction input_files as [|filename input_files IH]; intros i merged Hi; [done|].
  cbn [merge_pdf_loop].
  destruct (read_pdf _ fs) as [er|pdf_reader]; [done|].
  destruct (pdf_reader !! 0%nat) as [page_obj|]; [|done].
  rewrite bool_decide_eq_false_2 by done. apply IH. lia.
Qed.

Lemma merge_pdf_loop_nonempty input_folder filename input_files fs :
  match merge_pdf_loop input_folder (filename :: input_files) 0 None fs with
  | Ok None | Raise (UnboundLocalError _) => False
  | _ => True
  end.
Proof.
  cbn [merge_pdf_loop].
  destruct (read_pdf _ fs) as [er|pdf_reader]; [done|].
  destruct (pdf_reader !! 0%nat) as [page_obj|]; [|done].
  rewrite bool_decide_eq_true_2 by done. by apply merge_pdf_loop_bound.
Qed.

(** C9. [merge_pdf] needs a non-empty list of input files.  On the empty
    list [merged_page] is never assigned: the call fails with
    [UnboundLocalError] where the page is added to the output, and the file
    system is as it was.  On every non-empty list the loop either raises
    for a file it cannot read or ends with [merged_page] assigned, and the
    page is then added to the output, which is written; the unbound
    variable is reached for the empty list only. *)
Theorem merge_pdf_unbound_iff_no_input
    input_folder input_files output_folder output_file fs :
  merge_pdf input_folder [] output_folder output_file fs
  = (Raise (UnboundLocalError "merged_page"), fs)
  ∧ ((merge_pdf input_folder input_files output_folder output_file fs).1
     = Raise (UnboundLocalError "merged_page") ↔ input_files = [])
  ∧ (merge_pdf_loop input_folder input_files 0 None fs = Ok None
     ↔ input_files = [])
  ∧ (∀ merged,
       merge_pdf_loop input_folder input_files 0 None fs = Ok (Some merged) →
       posixpath.join output_folder output_file ∉ readonly fs →
       merge_pdf input_folder input_files output_folder output_file fs
       = (Ok (), FS (<[posixpath.join output_folder output_file := [merged]]>
                       (files fs)) (readonly fs))).
Proof.
  split; [done|].
  assert (∀ merged,
            merge_pdf_loop input_folder input_files 0 None fs = Ok (Some merged) →
            posixpath.join output_folder output_file ∉ readonly fs →
            merge_pdf input_folder input_files output_folder output_file fs
            = (Ok (), FS (<[posixpath.join output_folder output_file := [merged]]>
                            (files fs)) (readonly fs))) as Hadded.
  { intros merged Hloop Hw. unfold merge_pdf, write_pdf.
    by rewrite Hloop, bool_decide_eq_false_2. }
  destruct input_files as [|filename input_files].
  { repeat split; done. }
  pose proof (merge_pdf_loop_nonempty input_folder filename input_files fs) as Hloop.
  split; [|split; [|done]]; (split; [|done]); unfold merge_pdf.
  - destruct (merge_pdf_loop _ _ _ _ _) as [[merged|]|[]]; try done.
    destruct (write_pdf _ _ _); simpl; done.
  - intros Heq. by rewrite Heq in Hloop.
Qed.

End pcb_print_properties.

(** ** Validation of the configuration *)

Section config_properties.
Context `{PyFloat} `{KiBot}.








End config_properties.

(** ** Paths *)

Lemma string_app_cons (a : ascii) (s t : string) :
  String a s +:+ t = String a (s +:+ t).
Proof. reflexivity. Qed.

Lemma prefix_app (s t : string) : String.prefix s (s +:+ t) = true.
Proof.
  induction s as [|a s IH]; [by destruct t|].
  rewrite string_app_cons. simpl. by destruct (ascii_dec a a).
Qed.

Lemma string_app_assoc (s t u : string) : (s +:+ t) +:+ u = s +:+ t +:+ u.
Proof.
  induction s as [|a s IH]; [done|]. by rewrite !string_app_cons, IH.
Qed.

Lemma string_app_length (s t : string) :
  String.length (s +:+ t) = (String.length s + String.length t)%nat.
Proof.
  induction s as [|a s IH]; [done|]. rewrite string_app_cons. simpl.
  by rewrite IH.
Qed.

(** [+:+] can be cancelled on the right as well. *)
Lemma string_app_inj_r (s1 s2 t : string) : s1 +:+ t = s2 +:+ t → s1 = s2.
Proof.
  revert s2. induction s1 as [|a s1 IH]; intros [|b s2] Heq.
  - done.
  - apply (f_equal String.length) in Heq.
    rewrite string_app_cons in Heq. simpl in Heq.
    rewrite !string_app_length in Heq. simpl in Heq. lia.
  - apply (f_equal String.length) in Heq.
    rewrite string_app_cons in Heq. simpl in Heq.
    rewrite !string_app_length in Heq. simpl in Heq. lia.
  - rewrite !string_app_cons in Heq. injection Heq as -> Heq.
    f_equal. by apply IH.
Qed.

Lemma startswith_sep_app (s t : string) :
  s ≠ "" → posixpath.startswith_sep (s +:+ t) = posixpath.startswith_sep s.
Proof. by destruct s. Qed.

Section path_properties.
Context `{PyFloat} `{!PyPDF2} `{GS} `{KiBot} `{!pcbnew}.

(** The files [generate_output] names are relative, when the name of the
    board is. *)
Lemma name_relative (rest : string) :
  posixpath.startswith_sep pcb_basename = false →
  posixpath.startswith_sep (pcb_basename +:+ "-" +:+ rest) = false.
Proof.
  intros Hrel. destruct pcb_basename as [|c b] eqn:Hb; [done|].
  by rewrite startswith_sep_app.
Qed.

Lemma join_relative (d name : string) :
  d ≠ "" → posixpath.startswith_sep name = false →
  posixpath.join d name = dir_prefix d +:+ name.
Proof.
  intros Hd Hrel. unfold posixpath.join, dir_prefix.
  rewrite Hrel, bool_decide_eq_false_2 by done. simpl.
  destruct (posixpath.endswith_sep d); [done|].
  by rewrite string_app_assoc.
Qed.

Lemma under_join (d name : string) :
  d ≠ "" → posixpath.startswith_sep name = false →
  under d (posixpath.join d name) = true.
Proof.
  intros Hd Hrel. rewrite join_relative by done. apply prefix_app.
Qed.

Lemma join_inj (d name1 name2 : string) :
  d ≠ "" →
  posixpath.startswith_sep name1 = false →
  posixpath.startswith_sep name2 = false →
  posixpath.join d name1 = posixpath.join d name2 → name1 = name2.
Proof.
  intros Hd Hrel1 Hrel2. rewrite !join_relative by done. apply (inj _).
Qed.

End path_properties.

(** ** What [generate_output] leaves behind *)

Section confinement.
Context `{PyFloat} `{!PyPDF2} `{GS} `{KiBot} `{!pcbnew}.

Lemma confined_ret {A} d (post : A → Prop) a : post a → confined d post (ret a).
Proof. intros Ha fs. repeat split; simpl; congruence. Qed.

Lemma confined_raise {A} d (post : A → Prop) e : confined d post (raise e).
Proof. intros fs. repeat split; simpl; congruence. Qed.

Lemma confined_bind {A B} d (pre : A → Prop) (post : B → Prop) m k :
  confined d pre m → (∀ a, pre a → confined d post (k a)) →
  confined d post (bind m k).
Proof.
  intros Hm Hk fs. unfold bind. destruct (Hm fs) as (Hro & Hfiles & Hpre).
  destruct (m fs) as [[a|e] fs1]; simpl in *; [|done].
  destruct (Hk a (Hpre a eq_refl) fs1) as (Hro' & Hfiles' & Hpost).
  split; [congruence|]. split; [|done].
  intros path Hpath. by rewrite Hfiles', Hfiles.
Qed.

Lemma confined_foldM {A B} d (inv : B → Prop) (f : B → A → M B) l :
  (∀ b a, inv b → confined d inv (f b a)) →
  ∀ b, inv b → confined d inv (foldM f b l).
Proof.
  intros Hf. induction l as [|a l IH]; intros b Hb; simpl.
  - by apply confined_ret.
  - eapply confined_bind; [by apply Hf|]. intros b' Hb'. by apply IH.
Qed.

Lemma write_pdf_under d path doc fs fs' :
  under d path = true → write_pdf path doc fs = inr fs' →
  readonly fs' = readonly fs
  ∧ ∀ q, under d q = false → files fs' !! q = files fs !! q.
Proof.
  unfold write_pdf. intros Hpath Hw. case_bool_decide; [done|].
  injection Hw as <-. split; [done|]. intros q Hq. simpl.
  apply lookup_insert_ne. congruence.
Qed.

Lemma colorize_pdf_confined d in_file out_file color :
  under d (posixpath.join d out_file) = true →
  confined d (λ _, True) (colorize_pdf d in_file out_file color).
Proof.
  intros Hout fs. unfold colorize_pdf.
  destruct (read_pdf _ fs); [done|].
  destruct (write_pdf _ _ fs) as [er|fs'] eqn:Hw; [done|].
  destruct (write_pdf_under _ _ _ _ _ Hout Hw). done.
Qed.

Lemma merge_pdf_confined d input_files output_file :
  under d (posixpath.join d output_file) = true →
  confined d (λ _, True) (merge_pdf d input_files d output_file).
Proof.
  intros Hout fs. unfold merge_pdf.
  destruct (merge_pdf_loop _ _ _ _ fs) as [[merged|]|e]; [|done..].
  destruct (write_pdf _ _ fs) as [er|fs'] eqn:Hw; [done|].
  destruct (write_pdf_under _ _ _ _ _ Hout Hw). done.
Qed.

Lemma colorize_layer_confined d suffix color monochrome filelist :
  d ≠ "" → posixpath.startswith_sep pcb_basename = false →
  confined d (λ _, True) (colorize_layer suffix color monochrome filelist d).
Proof.
  intros Hd Hrel. unfold colorize_layer. case_bool_decide.
  - destruct (hex_to_rgb color) as [[rgb alpha]|e]; [|apply confined_raise].
    eapply confined_bind; [|intros; by apply confined_ret].
    apply colorize_pdf_confined, under_join; [done|by apply name_relative].
  - by apply confined_ret.
Qed.

Lemma PlotLayer_confined d title pc :
  d ≠ "" → posixpath.startswith_sep pcb_basename = false →
  OutputDirectory (plot_options pc) = d →
  confined d (λ _, True) (PlotLayer title pc).
Proof.
  intros Hd Hrel Hdir fs. unfold PlotLayer.
  destruct (plot_file pc) as [[suffix sheet]|]; [|done].
  destruct (write_pdf _ _ fs) as [er|fs'] eqn:Hw; [done|].
  rewrite Hdir in Hw.
  assert (under d (posixpath.join d (pcb_basename +:+ "-" +:+ suffix +:+ ".pdf"))
          = true) as Hout by (apply under_join; [done|by apply name_relative]).
  destruct (write_pdf_under _ _ _ _ _ Hout Hw). done.
Qed.

Lemma setup_page_directory p pc :
  OutputDirectory (plot_options (setup_page p pc))
  = OutputDirectory (plot_options pc).
Proof. unfold setup_page. by destruct ki5. Qed.

Lemma generate_page_confined self d state np :
  d ≠ "" → posixpath.startswith_sep pcb_basename = false →
  OutputDirectory (plot_options state.1) = d →
  confined d (λ state', OutputDirectory (plot_options state'.1) = d)
    (generate_page self d state np).
Proof.
  intros Hd Hrel Hdir. destruct state as [pc pages], np as [n p].
  unfold generate_page. simpl in Hdir.
  eapply (confined_bind _ (λ pc, OutputDirectory (plot_options pc) = d)).
  { apply confined_foldM; [|by rewrite setup_page_directory].
    intros pc' la Hpc'.
    eapply confined_bind; [by apply PlotLayer_confined|].
    intros _ _. by apply confined_ret. }
  intros pc1 Hpc1.
  eapply (confined_bind _ (λ pc, OutputDirectory (plot_options pc) = d)).
  { destruct (plot_sheet_reference self); [|by apply confined_ret].
    eapply confined_bind; [by apply PlotLayer_confined|].
    intros _ _. by apply confined_ret. }
  intros pc2 Hpc2.
  eapply (confined_bind _ (λ _, True)).
  { apply confined_foldM; [|done]. intros. by apply colorize_layer_confined. }
  intros filelist _.
  eapply (confined_bind _ (λ _, True)).
  { destruct (plot_sheet_reference self); [|by apply confined_ret].
    by apply colorize_layer_confined. }
  intros filelist' _.
  eapply confined_bind.
  { apply merge_pdf_confined, under_join; [done|by apply name_relative]. }
  intros _ _. by apply confined_ret.
Qed.

Lemma bind_Ok {A B} (m : M A) (k : A → M B) fs b fs' :
  bind m k fs = (Ok b, fs') →
  ∃ a fs1, m fs = (Ok a, fs1) ∧ k a fs1 = (Ok b, fs').
Proof.
  unfold bind. destruct (m fs) as [[a|e] fs1]; [eauto|done].
Qed.

(** C8. When [generate_output] completes, nothing is left under the
    temporary directory, in which all the intermediate files were made:
    the files outside of it are as they were before the run, but for the
    output file, which is there. *)
Theorem generate_output_removes_temporary_files self output fs fs' :
  let temp_dir := mkdtemp "tmp-kibot-pcb_print-" fs in
  posixpath.startswith_sep pcb_basename = false →
  under temp_dir output = false →
  generate_output self output fs = (Ok (), fs') →
  (∀ path, under temp_dir path = true → files fs' !! path = None)
  ∧ (∀ path, under temp_dir path = false → path ≠ output →
             files fs' !! path = files fs !! path)
  ∧ is_Some (files fs' !! output).
Proof.
  intros temp_dir Hrel Hout. unfold generate_output. fold temp_dir.
  destruct (pages self) as [pgs|]; [|by intros [=]].
  intros ([pc pages] & fs1 & Hloop & Hrun)%bind_Ok.
  apply bind_Ok in Hrun as ([] & fs2 & Hstack & Hrm).
  unfold rmtree in Hrm. case_bool_decide as Hd; [done|].
  injection Hrm as <-.
  unfold create_pdf_from_pages in Hstack.
  destruct (create_pdf_from_pages_loop _ _ _ fs1) as [doc|]; [|done].
  unfold write_pdf in Hstack. case_bool_decide; [done|].
  injection Hstack as <-. simpl.
  match type of Hloop with foldM ?f ?init ?l fs = _ =>
    destruct (confined_foldM temp_dir
                (λ state, OutputDirectory (plot_options state.1) = temp_dir)
                f l (λ st np Hst,
                       generate_page_confined self temp_dir st np Hd Hrel Hst)
                init eq_refl fs) as (_ & Hfiles & _)
  end.
  rewrite Hloop in Hfiles. simpl in Hfiles.
  split; [|split].
  - intros path Hpath. apply map_lookup_filter_None. right.
    intros doc' _. simpl. congruence.
  - intros path Hpath Hne.
    rewrite <- Hfiles by done.
    destruct (files fs1 !! path) as [doc'|] eqn:Hdoc.
    + apply map_lookup_filter_Some. by rewrite lookup_insert_ne.
    + apply map_lookup_filter_None. left. by rewrite lookup_insert_ne.
  - exists doc. apply map_lookup_filter_Some. by rewrite lookup_insert_eq.
Qed.

End confinement.

(** ** The pipeline of [generate_output] *)

Section pipeline.
Context `{PyFloat} `{!PyPDF2} `{GS} `{KiBot} `{!pcbnew}.

(** *** Plotting *)

Lemma setup_layer_directory p la pc :
  OutputDirectory (plot_options (setup_layer p la pc))
  = OutputDirectory (plot_options pc).
Proof. done. Qed.

Lemma setup_frame_directory p pc :
  OutputDirectory (plot_options (setup_frame p pc))
  = OutputDirectory (plot_options pc).
Proof. done. Qed.

Lemma PlotLayer_writes d title pc suffix sheet fs :
  OutputDirectory (plot_options pc) = d →
  plot_file pc = Some (suffix, sheet) →
  posixpath.join d (plot_name suffix) ∉ readonly fs →
  PlotLayer title pc fs
  = (Ok (), FS (<[posixpath.join d (plot_name suffix) :=
                    plot_pdf (job_of title sheet pc)]> (files fs))
               (readonly fs)).
Proof.
  intros Hd Hfile Hw. unfold PlotLayer, write_pdf. rewrite Hfile, Hd.
  fold (plot_name suffix). by rewrite bool_decide_eq_false_2.
Qed.

Lemma plot_layers_spec d title p las :
  ∀ pc fs,
  OutputDirectory (plot_options pc) = d →
  Forall (λ la, posixpath.join d (plot_name (suffix la)) ∉ readonly fs) las →
  NoDup (posixpath.join d ∘ plot_name ∘ suffix <$> las) →
  ∃ fs',
    foldM (λ pc la, let pc := setup_layer p la pc in
                    do! PlotLayer title pc in ret pc) pc las fs
    = (Ok (after_layers p pc las), fs')
    ∧ readonly fs' = readonly fs
    ∧ Forall2 (λ la doc,
                 files fs' !! posixpath.join d (plot_name (suffix la)) = Some doc)
        las (layer_plots title p pc las)
    ∧ (∀ q, q ∉ (posixpath.join d ∘ plot_name ∘ suffix <$> las) →
            files fs' !! q = files fs !! q).
Proof.
  induction las as [|la las IH]; intros pc fs Hd Hw Hnodup.
  { exists fs. repeat split; auto. }
  apply Forall_cons in Hw as [Hwla Hw].
  rewrite fmap_cons in Hnodup. apply NoDup_cons in Hnodup as [Hla Hnodup].
  cbn [foldM]. unfold bind at 1. unfold bind at 1.
  rewrite (PlotLayer_writes d _ _ (suffix la) (sheet p)) by done.
  cbn [ret].
  set (fs1 := FS _ _).
  destruct (IH (setup_layer p la pc) fs1) as (fs' & Hrun & Hro & Hdocs & Hframe);
    [done|done|done|].
  exists fs'. split; [exact Hrun|]. split; [done|]. split.
  - cbn [layer_plots]. constructor; [|done].
    rewrite Hframe by done. apply lookup_insert_eq.
  - intros q Hq. rewrite fmap_cons in Hq. apply not_elem_of_cons in Hq as [Hq1 Hq2].
    rewrite Hframe by done. by apply lookup_insert_ne.
Qed.

(** *** Coloring *)

Lemma colored_paths_cons d sfx col items :
  colored_paths d ((sfx, col) :: items)
  = (if bool_decide (col ≠ "#000000")
     then [posixpath.join d (colored_name sfx)] else [])
    ++ colored_paths d items.
Proof.
  unfold colored_paths. rewrite filter_cons. simpl.
  case_decide.
  - by rewrite bool_decide_eq_true_2, fmap_cons.
  - rewrite bool_decide_eq_false_2; [done|]. by intros [].
Qed.

Lemma colorize_items_spec d monochrome jobs :
  ∀ cdocs filelist fs,
  Forall (λ job, files fs !! posixpath.join d (plot_name job.1.1) = Some job.2)
    jobs →
  mapM (λ job, colored monochrome job.1.2 job.2) jobs = Some cdocs →
  Forall (λ q, q ∉ readonly fs) (colored_paths d (fst <$> jobs)) →
  Forall (λ q, q ∉ plot_paths d (fst <$> jobs)) (colored_paths d (fst <$> jobs)) →
  NoDup (colored_paths d (fst <$> jobs)) →
  ∃ fs',
    foldM (λ filelist item,
             colorize_layer item.1 item.2 monochrome filelist d)
      filelist (fst <$> jobs) fs
    = (Ok (filelist ++ (final_name ∘ fst <$> jobs)), fs')
    ∧ readonly fs' = readonly fs
    ∧ Forall2 (λ job cdoc,
                 files fs' !! posixpath.join d (final_name job.1) = Some cdoc)
        jobs cdocs
    ∧ (∀ q, q ∉ colored_paths d (fst <$> jobs) →
            files fs' !! q = files fs !! q).
Proof.
  induction jobs as [|[[sfx col] doc] jobs IH];
    intros cdocs filelist fs Hin Hcol Hw Hsep Hnodup.
  { apply mapM_Some in Hcol. inversion Hcol; subst.
    exists fs. simpl. rewrite app_nil_r. repeat split; auto. }
  apply mapM_Some in Hcol.
  inversion Hcol as [|? cdoc ? cdocs' Hcdoc Hcdocs]; subst.
  apply mapM_Some in Hcdocs.
  apply Forall_cons in Hin as [Hdoc Hin]. simpl in Hdoc, Hcdoc.
  rewrite fmap_cons in Hw, Hsep, Hnodup |- *. cbn [fst] in Hw, Hsep, Hnodup |- *.
  assert (Forall (λ q, q ≠ posixpath.join d (plot_name sfx)
                       ∧ q ∉ plot_paths d (fst <$> jobs))
            (colored_paths d ((sfx, col) :: (fst <$> jobs)))) as Hsep'.
  { eapply Forall_impl; [exact Hsep|]. intros q Hq.
    unfold plot_paths in Hq. rewrite fmap_cons in Hq.
    by apply not_elem_of_cons in Hq. }
  clear Hsep. rewrite colored_paths_cons in Hw, Hsep', Hnodup.
  cbn [foldM fst snd]. unfold bind at 1.
  unfold colorize_layer at 1. fold (plot_name sfx) (colored_name sfx).
  unfold colored in Hcdoc.
  assert (final_name (sfx, col)
          = if bool_decide (col ≠ "#000000") then colored_name sfx
            else plot_name sfx) as Hfinal by done.
  destruct (bool_decide (col ≠ "#000000")) eqn:Hcolor.
  - (* a color: the plot is recolored into a new file *)
    apply Forall_app in Hw as [[Hwc _]%Forall_cons Hw].
    apply Forall_app in Hsep' as [[[Hne Hnotin] _]%Forall_cons Hsep].
    apply NoDup_app in Hnodup as (_ & Hfresh & Hnodup).
    specialize (Hfresh _ (list_elem_of_here _ _)).
    destruct (hex_to_rgb col) as [[rgb alpha]|]; [|done].
    injection Hcdoc as <-. unfold bind, ret.
    rewrite (colorize_pdf_ok _ _ _ _ _ _ Hdoc Hwc).
    set (fs1 := FS _ _).
    destruct (IH cdocs' (filelist ++ [colored_name sfx]) fs1)
      as (fs' & Hrun & Hro & Hdocs & Hframe); try done.
    { apply Forall_forall. intros job Hjob. simpl.
      rewrite lookup_insert_ne.
      - by eapply Forall_forall in Hin.
      - intros Heq.
        assert (posixpath.join d (colored_name sfx)
                ∈ plot_paths d (fst <$> jobs)) as Hel.
        { rewrite Heq. unfold plot_paths. apply list_elem_of_fmap.
          exists job.1. split; [done|]. apply list_elem_of_fmap. by exists job. }
        done. }
    { eapply Forall_impl; [exact Hsep|]. by intros q [_ Hq]. }
    exists fs'. rewrite Hrun, <- app_assoc, fmap_cons. cbn [compose fst].
    rewrite Hfinal. split; [done|]. split; [done|]. split.
    + constructor; [|done]. cbn [fst]. rewrite Hfinal, Hframe by done.
      by destruct monochrome; apply lookup_insert_eq.
    + rewrite colored_paths_cons, Hcolor.
      intros q [Hq1 Hq2]%not_elem_of_cons.
      rewrite Hframe by done. by apply lookup_insert_ne.
  - (* black: the plot itself is used *)
    simpl in Hw, Hsep', Hnodup. injection Hcdoc as <-. unfold ret.
    destruct (IH cdocs' (filelist ++ [plot_name sfx]) fs)
      as (fs' & Hrun & Hro & Hdocs & Hframe); try done.
    { eapply Forall_impl; [exact Hsep'|]. by intros q [_ Hq]. }
    exists fs'. rewrite Hrun, <- app_assoc, fmap_cons. cbn [compose fst].
    rewrite Hfinal. split; [done|]. split; [done|]. split.
    + constructor; [|done]. cbn [fst]. rewrite Hfinal, Hframe; [done|].
      intros Hel. eapply Forall_forall in Hsep'; [|exact Hel]. by destruct Hsep'.
    + by rewrite colored_paths_cons, Hcolor.
Qed.

(** *** One page *)

Lemma foldM_fmap {A B C} (f : B → C → M B) (g : A → C) b l fs :
  foldM (λ b a, f b (g a)) b l fs = foldM f b (g <$> l) fs.
Proof.
  revert b fs. induction l as [|a l IH]; intros b fs; [done|].
  rewrite fmap_cons. cbn [foldM]. unfold bind.
  destruct (f b (g a) fs) as [[b'|e] fs1]; [apply IH|done].
Qed.

Lemma foldM_snoc_Ok {A B} (f : B → A → M B) b l a fs c fs' :
  foldM f b (l ++ [a]) fs = (Ok c, fs') →
  ∃ b1 fs1, foldM f b l fs = (Ok b1, fs1) ∧ f b1 a fs1 = (Ok c, fs').
Proof.
  revert b fs. induction l as [|x l IH]; intros b fs; simpl.
  - unfold bind, ret. destruct (f b a fs) as [[b'|e] fs1] eqn:Hf; [|by intros [=]].
    intros [= -> ->]. by exists b, fs.
  - unfold bind at 1.
    destruct (f b x fs) as [[b'|e] fs1] eqn:Hf.
    + intros (b1 & fs2 & Hl & Ha)%IH. exists b1, fs2. split; [|done].
      unfold bind. by rewrite Hf.
    + by intros [=].
Qed.

Lemma layer_plots_length title p pc las :
  length (layer_plots title p pc las) = length las.
Proof.
  revert pc. induction las as [|la las IH]; intros pc; simpl; [done|].
  by rewrite IH.
Qed.

Lemma Forall2_zip_Forall {A B} (P : A → B → Prop) l k :
  Forall2 P l k → Forall (λ x, P x.1 x.2) (zip l k).
Proof. induction 1; simpl; constructor; auto. Qed.

Lemma name_paths_NoDup d (names : list string) :
  d ≠ "" →
  Forall (λ name, posixpath.startswith_sep name = false) names →
  NoDup names → NoDup (posixpath.join d <$> names).
Proof.
  intros Hd Hrel Hnodup. apply NoDup_fmap_2_strong; [|done].
  intros x y Hx Hy. apply join_inj; [done|..].
  - by eapply Forall_forall in Hrel.
  - by eapply Forall_forall in Hrel.
Qed.

Lemma page_files_relative self p :
  posixpath.startswith_sep pcb_basename = false →
  Forall (λ name, posixpath.startswith_sep name = false) (page_files self p).
Proof.
  intros Hrel. unfold page_files. apply Forall_app. split.
  - apply Forall_fmap, Forall_forall. intros item _. by apply name_relative.
  - apply Forall_fmap, Forall_forall. intros item _. by apply name_relative.
Qed.

Lemma page_files_paths self p d :
  posixpath.join d <$> page_files self p
  = plot_paths d (page_items self p) ++ colored_paths d (page_items self p).
Proof.
  unfold page_files, plot_paths, colored_paths.
  by rewrite fmap_app, <- !list_fmap_compose.
Qed.

Lemma page_files_under self p d :
  d ≠ "" → posixpath.startswith_sep pcb_basename = false →
  Forall (λ q, under d q = true) (posixpath.join d <$> page_files self p).
Proof.
  intros Hd Hrel. apply Forall_fmap.
  eapply Forall_impl; [by apply page_files_relative|].
  intros name Hname. by apply under_join.
Qed.

Lemma bind_assoc_Ok {A B C} (m : M A) (k1 : A → M B) (k2 : B → M C) fs b fs1 :
  bind m k1 fs = (Ok b, fs1) → bind m (λ a, bind (k1 a) k2) fs = k2 b fs1.
Proof.
  unfold bind. destruct (m fs) as [[a|e] fsa]; [|by intros [=]].
  by intros ->.
Qed.

Lemma after_layers_directory p pc las :
  OutputDirectory (plot_options (after_layers p pc las))
  = OutputDirectory (plot_options pc).
Proof.
  revert pc. induction las as [|la las IH]; intros pc; [done|].
  simpl. by rewrite IH.
Qed.

Lemma Forall2_lookup_preserved (m m' : gmap string pdf) paths docs :
  Forall2 (λ q doc, m !! q = Some doc) paths docs →
  (∀ q, q ∈ paths → m' !! q = m !! q) →
  Forall2 (λ q doc, m' !! q = Some doc) paths docs.
Proof.
  induction 1 as [|q doc paths docs Hq _ IH]; intros Hsame; constructor.
  - rewrite Hsame; [done|]. by left.
  - apply IH. intros q' Hq'. apply Hsame. by right.
Qed.

Lemma plot_page_spec self d p pc fs :
  OutputDirectory (plot_options pc) = d →
  Forall (λ q, q ∉ readonly fs) (plot_paths d (page_items self p)) →
  NoDup (plot_paths d (page_items self p)) →
  ∃ pc2 fs2,
    bind (foldM (λ pc la, let pc := setup_layer p la pc in
                          do! PlotLayer (page_title self p) pc in ret pc)
            (setup_page p pc) (page_layers p))
      (λ pc, if plot_sheet_reference self then
               let pc := setup_frame p pc in
               do! PlotLayer (page_title self p) pc in ret pc
             else ret pc) fs
    = (Ok pc2, fs2)
    ∧ ClosePlot pc2 = page_controller self p pc
    ∧ readonly fs2 = readonly fs
    ∧ Forall2 (λ q doc, files fs2 !! q = Some doc)
        (plot_paths d (page_items self p)) (page_plots self p pc)
    ∧ (∀ q, q ∉ plot_paths d (page_items self p) →
            files fs2 !! q = files fs !! q).
Proof.
  intros Hdir Hw Hnodup.
  unfold page_items, page_plots, page_controller, plot_paths in *.
  set (las := page_layers p) in *. set (title := page_title self p) in *.
  set (pc1 := setup_page p pc) in *.
  rewrite fmap_app, <- list_fmap_compose in Hw, Hnodup |- *.
  apply Forall_app in Hw as [Hw_layers Hw_frame].
  apply NoDup_app in Hnodup as (Hnodup_layers & Hsep & _).
  destruct (plot_layers_spec d title p las pc1 fs)
    as (fs1 & Hrun1 & Hro1 & Hdocs1 & Hframe1).
  { by unfold pc1; rewrite setup_page_directory. }
  { apply Forall_forall. intros la Hla.
    eapply Forall_forall in Hw_layers; [exact Hw_layers|].
    apply list_elem_of_fmap. by exists la. }
  { exact Hnodup_layers. }
  cbv zeta in Hrun1. unfold bind at 1. rewrite Hrun1.
  assert (Hlayers : Forall2 (λ q doc, files fs1 !! q = Some doc)
            (posixpath.join d ∘ plot_name ∘ suffix <$> las)
            (layer_plots title p pc1 las)).
  { apply Forall2_fmap_l. exact Hdocs1. }
  destruct (plot_sheet_reference self).
  - unfold bind, ret.
    simpl in Hw_frame, Hsep. apply Forall_inv in Hw_frame.
    rewrite (PlotLayer_writes d _ _ "frame" (sheet p)); [| |done|].
    2:{ unfold pc1. by rewrite setup_frame_directory, after_layers_directory,
          setup_page_directory. }
    2:{ rewrite Hro1. exact Hw_frame. }
    eexists _, _. split; [done|]. split; [done|]. split; [done|]. split.
    + apply Forall2_app.
      * eapply Forall2_lookup_preserved; [exact Hlayers|].
        intros q Hq. simpl. apply lookup_insert_ne. intros <-.
        apply (Hsep _ Hq). by left.
      * constructor; [|done]. apply lookup_insert_eq.
    + intros q [Hq1 [Hq2 _]%not_elem_of_cons]%not_elem_of_app. simpl.
      rewrite lookup_insert_ne by done. by apply Hframe1.
  - unfold ret. rewrite !app_nil_r. simpl in *.
    eexists _, _. split; [done|]. split; [done|]. split; [done|]. split; [done|].
    intros q Hq. by apply Hframe1.
Qed.

Lemma color_page_spec self d p plots fs cdocs :
  Forall2 (λ q doc, files fs !! q = Some doc)
    (plot_paths d (page_items self p)) plots →
  mapM (λ job, colored (monochrome p) job.1.2 job.2)
    (zip (page_items self p) plots) = Some cdocs →
  Forall (λ q, q ∉ readonly fs) (colored_paths d (page_items self p)) →
  (∀ q, q ∈ plot_paths d (page_items self p) →
        q ∉ colored_paths d (page_items self p)) →
  NoDup (colored_paths d (page_items self p)) →
  ∃ fs3,
    bind (foldM (λ filelist la,
                   colorize_layer (suffix la) (color la) (monochrome p)
                     filelist d) [] (page_layers p))
      (λ filelist,
         if plot_sheet_reference self then
           colorize_layer "frame" (frame_color self p) (monochrome p) filelist d
         else ret filelist) fs
    = (Ok (final_name <$> page_items self p), fs3)
    ∧ readonly fs3 = readonly fs
    ∧ Forall2 (λ q cdoc, files fs3 !! q = Some cdoc)
        (posixpath.join d ∘ final_name <$> page_items self p) cdocs
    ∧ (∀ q, q ∉ colored_paths d (page_items self p) →
            files fs3 !! q = files fs !! q).
Proof.
  intros Hplots Hcdocs Hw Hsep Hnodup.
  set (items := page_items self p) in *.
  assert (fst <$> zip items plots = items) as Hitems.
  { apply fst_zip. apply Forall2_length in Hplots.
    unfold plot_paths in Hplots. rewrite length_fmap in Hplots. lia. }
  destruct (colorize_items_spec d (monochrome p) (zip items plots) cdocs [] fs)
    as (fs3 & Hrun & Hro & Hdocs & Hframe).
  { apply Forall2_fmap_l in Hplots.
    apply (Forall2_zip_Forall _ _ _ Hplots). }
  { done. }
  { by rewrite Hitems. }
  { rewrite Hitems. apply Forall_forall. intros q Hq Hq'. by apply (Hsep q). }
  { by rewrite Hitems. }
  rewrite Hitems in Hrun, Hframe. simpl in Hrun.
  rewrite (list_fmap_compose fst final_name), Hitems in Hrun.
  exists fs3. split; [|split; [done|split; [|done]]].
  2:{ rewrite <- Hitems at 1. rewrite <- list_fmap_compose.
      apply Forall2_fmap_l. exact Hdocs. }
  clear Hdocs Hframe Hsep Hnodup Hw Hcdocs Hplots Hitems.
  revert Hrun. generalize (final_name <$> items). intros filelist.
  unfold items, page_items.
  set (g := λ la : LayerOptions, (suffix la, color la)).
  set (f := λ (filelist : list string) (item : string * string),
              colorize_layer item.1 item.2 (monochrome p) filelist d).
  assert (∀ b, foldM (λ filelist la,
                        colorize_layer (suffix la) (color la) (monochrome p)
                          filelist d) [] (page_layers p) b
               = foldM f [] (g <$> page_layers p) b) as Hfmap.
  { intros b. apply (foldM_fmap f g). }
  unfold bind. rewrite Hfmap.
  destruct (plot_sheet_reference self).
  - intros (b1 & fs1 & -> & Hlast)%foldM_snoc_Ok. exact Hlast.
  - rewrite app_nil_r. by intros ->.
Qed.

Lemma generate_page_spec self d n p pc pages fs pg :
  d ≠ "" → posixpath.startswith_sep pcb_basename = false →
  OutputDirectory (plot_options pc) = d →
  (∀ path, under d path = true → path ∉ readonly fs) →
  NoDup (page_files self p) →
  assemble_page self p pc = Some pg →
  ∃ fs',
    generate_page self d (pc, pages) (n, p) fs
    = (Ok (page_controller self p pc, pages ++ [assembly_name n]), fs')
    ∧ readonly fs' = readonly fs
    ∧ files fs' !! posixpath.join d (assembly_name n) = Some [pg]
    ∧ (∀ q, q ∉ (posixpath.join d <$> page_files self p) →
            q ≠ posixpath.join d (assembly_name n) →
            files fs' !! q = files fs !! q).
Proof.
  intros Hd Hrel Hdir Hw Hnodup Hpg.
  pose proof (name_paths_NoDup d _ Hd (page_files_relative self p Hrel) Hnodup)
    as Hpaths.
  pose proof (page_files_under self p d Hd Hrel) as Hunder.
  rewrite page_files_paths in Hpaths, Hunder. rewrite page_files_paths.
  apply NoDup_app in Hpaths as (Hplots & Hsep & Hcolored).
  apply Forall_app in Hunder as [Hunder_p Hunder_c].
  unfold assemble_page in Hpg.
  apply bind_Some in Hpg as (cdocs & Hcdocs & Hmerged).
  unfold merged in Hmerged.
  apply bind_Some in Hmerged as (firsts & Hfirsts & Hpg).
  destruct firsts as [|p0 ps]; [done|]. injection Hpg as <-.
  destruct (plot_page_spec self d p pc fs Hdir)
    as (pc2 & fs2 & Hrun12 & Hpc & Hro2 & Hdocs2 & Hframe2).
  { eapply Forall_impl; [exact Hunder_p|]. intros q Hq. by apply Hw. }
  { done. }
  destruct (color_page_spec self d p (page_plots self p pc) fs2 cdocs)
    as (fs3 & Hrun34 & Hro3 & Hdocs3 & Hframe3); try done.
  { eapply Forall_impl; [exact Hunder_c|]. intros q Hq. rewrite Hro2. by apply Hw. }
  assert (mapM (first_page fs3 d) (final_name <$> page_items self p)
          = Some (p0 :: ps)) as Hread.
  { apply mapM_Some. apply mapM_Some in Hfirsts.
    apply Forall2_fmap_l in Hdocs3. apply Forall2_fmap_l.
    eapply Forall2_trans; [|exact Hdocs3|exact Hfirsts].
    intros item cdoc pg Hcdoc Hpg. unfold first_page. simpl in *.
    by rewrite Hcdoc. }
  assert (under d (posixpath.join d (assembly_name n)) = true) as Hassembly.
  { apply under_join; [done|]. by apply name_relative. }
  pose proof (merge_pdf_ok d _ d (assembly_name n) fs3 p0 ps Hread) as Hmerge.
  unfold generate_page. cbv zeta in Hrun12 |- *.
  rewrite (bind_assoc_Ok _ _ _ _ _ _ Hrun12).
  rewrite (bind_assoc_Ok _ _ _ _ _ _ Hrun34).
  unfold bind, ret. fold (assembly_name n). rewrite Hmerge.
  2:{ rewrite Hro3, Hro2. by apply Hw. }
  eexists. split; [by rewrite Hpc|]. split; [simpl; congruence|]. split.
  - apply lookup_insert_eq.
  - intros q [Hq1 Hq2]%not_elem_of_app Hq3. simpl.
    rewrite lookup_insert_ne by done. by rewrite Hframe3, Hframe2.
Qed.

(** *** All the pages *)

Lemma assembly_name_inj n m : assembly_name n = assembly_name m → n = m.
Proof.
  unfold assembly_name. intros Heq.
  apply (inj _), (inj _), string_app_inj_r in Heq. by apply (inj pretty).
Qed.

Lemma page_controller_directory self p pc :
  OutputDirectory (plot_options (page_controller self p pc))
  = OutputDirectory (plot_options pc).
Proof.
  unfold page_controller.
  destruct (plot_sheet_reference self); simpl;
    by rewrite after_layers_directory, setup_page_directory.
Qed.

Lemma generate_pages_spec self d pgs :
  d ≠ "" → posixpath.startswith_sep pcb_basename = false →
  ∀ k pc fs prev assembled,
  OutputDirectory (plot_options pc) = d →
  (∀ path, under d path = true → path ∉ readonly fs) →
  Forall (λ p, NoDup (page_files self p)
               ∧ Forall (λ n, assembly_name n ∉ page_files self p)
                   (seq 0 (k + length pgs))) pgs →
  Forall2 (λ name pg, files fs !! posixpath.join d name = Some [pg])
    (assembly_name <$> seq 0 k) prev →
  assemble self pc pgs = Some assembled →
  ∃ pc' fs',
    foldM (generate_page self d) (pc, assembly_name <$> seq 0 k)
      (imap (λ n p, ((k + n)%nat, p)) pgs) fs
    = (Ok (pc', assembly_name <$> seq 0 (k + length pgs)), fs')
    ∧ Forall2 (λ name pg, files fs' !! posixpath.join d name = Some [pg])
        (assembly_name <$> seq 0 (k + length pgs)) (prev ++ assembled)
    ∧ readonly fs' = readonly fs.
Proof.
  intros Hd Hrel.
  induction pgs as [|p pgs IH]; intros k pc fs prev assembled Hdir Hw Hnames Hprev Hasm.
  { injection Hasm as <-. simpl. rewrite Nat.add_0_r, app_nil_r.
    by exists pc, fs. }
  simpl in Hasm.
  apply bind_Some in Hasm as (pg & Hpg & Hasm).
  apply bind_Some in Hasm as (rest & Hrest & [= <-]).
  apply Forall_cons in Hnames as [[Hnodup Hfree] Hnames].
  rewrite imap_cons. cbn [foldM]. unfold bind at 1.
  destruct (generate_page_spec self d (k + 0) p pc (assembly_name <$> seq 0 k)
              fs pg Hd Hrel Hdir Hw Hnodup Hpg)
    as (fs1 & Hrun & Hro1 & Hnew & Hframe).
  rewrite Hrun.
  replace ((assembly_name <$> seq 0 k) ++ [assembly_name (k + 0)])
    with (assembly_name <$> seq 0 (S k)).
  2:{ by rewrite seq_S, fmap_app, Nat.add_0_r. }
  replace (k + length (p :: pgs))%nat with (S k + length pgs)%nat in *
    by (simpl; lia).
  destruct (IH (S k) (page_controller self p pc) fs1 (prev ++ [pg]) rest)
    as (pc' & fs' & Hloop & Hdocs & Hro); try done.
  { by rewrite page_controller_directory. }
  { intros path Hpath. rewrite Hro1. by apply Hw. }
  { rewrite seq_S, fmap_app. apply Forall2_app; [|constructor; [|done]].
    2:{ by rewrite Nat.add_0_r in Hnew. }
    apply (Forall2_fmap (posixpath.join d) (λ pg, [pg])
             (λ q doc, files fs1 !! q = Some doc)).
    eapply Forall2_lookup_preserved.
    { apply (Forall2_fmap (posixpath.join d) (λ pg, [pg])
               (λ q doc, files fs !! q = Some doc)). exact Hprev. }
    intros q (name & -> & (j & -> & Hj)%list_elem_of_fmap)%list_elem_of_fmap.
    apply elem_of_seq in Hj.
    assert (posixpath.startswith_sep (assembly_name j) = false) as Hrelj
      by by apply name_relative.
    apply Hframe.
    - intros (name & Heq & Hname)%list_elem_of_fmap.
      apply join_inj in Heq; [|done|done|].
      2:{ by eapply Forall_forall in Hname; [|by apply page_files_relative]. }
      subst name. eapply Forall_forall in Hfree; [by apply Hfree|].
      apply elem_of_seq. lia.
    - intros Heq. apply join_inj in Heq; [|done|done|by apply name_relative].
      apply assembly_name_inj in Heq. lia. }
  exists pc', fs'. split; [|split].
  - rewrite <- Hloop. f_equal. apply imap_ext. intros i x _. simpl.
    f_equal. lia.
  - by rewrite <- app_assoc in Hdocs.
  - congruence.
Qed.

(** C2. [generate_output] makes the output document page by page, in the
    order of the configuration: for each page, every layer is plotted by
    the engine to a file of its own, then the frame if it is wanted; each
    of these files is colored; the colored files of the page are merged
    into one page; and, at the end, the pages are stacked into the output
    file.  So the output document is [assemble]: one page per configured
    page, which is the merge of the colored plots of its layers and frame. *)
Theorem generate_output_pipeline self output fs pgs assembled :
  let temp_dir := mkdtemp "tmp-kibot-pcb_print-" fs in
  pages self = Some pgs →
  assemble self (plot_controller self temp_dir) pgs = Some assembled →
  names_ok self pgs →
  temp_dir ≠ "" →
  posixpath.startswith_sep pcb_basename = false →
  (∀ path, under temp_dir path = true → path ∉ readonly fs) →
  output ∉ readonly fs →
  under temp_dir output = false →
  ∃ fs', generate_output self output fs = (Ok (), fs')
         ∧ files fs' !! output = Some (compressContentStreams <$> assembled).
Proof.
  intros temp_dir Hpages Hasm Hnames Hd Hrel Hw Hwout Hout.
  unfold generate_output. fold temp_dir. rewrite Hpages.
  destruct (generate_pages_spec self temp_dir pgs Hd Hrel 0
              (plot_controller self temp_dir) fs [] assembled)
    as (pc' & fs1 & Hloop & Hdocs & Hro); try done.
  simpl in Hloop, Hdocs.
  unfold bind at 1. rewrite Hloop.
  assert (mapM (first_page fs1 temp_dir) (assembly_name <$> seq 0 (length pgs))
          = Some assembled) as Hread.
  { apply mapM_Some. eapply Forall2_impl; [exact Hdocs|].
    intros name pg Hpg. unfold first_page. by rewrite Hpg. }
  unfold bind.
  rewrite (create_pdf_from_pages_ok _ _ _ _ _ Hread) by by rewrite Hro.
  unfold rmtree. rewrite bool_decide_eq_false_2 by done.
  eexists. split; [done|]. simpl.
  apply map_lookup_filter_Some. by rewrite lookup_insert_eq.
Qed.

End pipeline.

(** ** The Blender export *)

Section blender_properties.
Import blender_export.
Context `{PyFloat} `{!kiplot}.





(** C7. [run] looks for the PCB3D file before anything is made for the
    renderer: the output that generates the file is run first if it has
    not been run, and when the file is still missing [run] raises
    [KiPlotConfigurationError] with "Missing <file>", in the state that
    [run_output] left: no scene file is written and no command is run. *)
Theorem run_missing_pcb3d self w pcb3d_file targets out_dir pcb3d_out :
  get_output_targets (pcb3d self) = (pcb3d_file :: targets, out_dir, pcb3d_out) →
  disk (after_pcb3d pcb3d_out w) !! pcb3d_file = None →
  run self w
  = (Raise (KiPlotConfigurationError ("Missing " +:+ pcb3d_file)),
     after_pcb3d pcb3d_out w)
  ∧ after_pcb3d pcb3d_out w
    = (if bool_decide (pcb3d_out ∈ outputs_done w) then w
       else run_output pcb3d_out w).
Proof.
  intros Htargets Hfile. split; [|done]. unfold run. rewrite Htargets. simpl.
  assert ((if bool_decide (pcb3d_out ∉ outputs_done w)
           then run_output pcb3d_out w else w) = after_pcb3d pcb3d_out w) as ->.
  { unfold after_pcb3d. by repeat case_bool_decide. }
  by rewrite bool_decide_eq_true_2.
Qed.

(** The test [name in light_names] is made on a set to which no name is
    ever added: every light keeps its name, or gets the default one. *)
Lemma check_light_names_spec (lights : list BlenderLightOptions) :
  check_light_names lights
  = (λ li, BlenderLightOptions_set_name
             (if bool_decide (name li ≠ "") then name li else "kibot_light") li)
      <$> lights.
Proof.
  unfold check_light_names.
  cut (∀ done,
         foldl (λ done li, done ++ [check_light_name ∅ li]) done lights
         = done ++ ((λ li, BlenderLightOptions_set_name
                             (if bool_decide (name li ≠ "") then name li
                              else "kibot_light") li) <$> lights)).
  { intros Hloop. apply (Hloop []). }
  induction lights as [|li lights IH]; intros done; simpl.
  - by rewrite app_nil_r.
  - rewrite IH, <- app_assoc. done.
Qed.

End blender_properties.

Section light_names.
Import blender_export.

Lemma light_name_id_inj (name : string) (i j : nat) :
  name +:+ "_" +:+ pretty i = name +:+ "_" +:+ pretty j → i = j.
Proof. intros Heq. by apply (inj _), (inj _), (inj pretty) in Heq. Qed.

(** The [while] loop ends before its bound: with [n] above the number of
    names of the set that have not been tried, it stops at an identifier
    whose name is not in the set. *)
Lemma next_free_id_bounded (light_names : gset string) (name : string) (n : nat) :
  ∀ (tried : gset string) (id : nat),
  (size (light_names ∖ tried) < n)%nat →
  (∀ j, (id ≤ j)%nat → name +:+ "_" +:+ pretty j ∉ tried) →
  name +:+ "_" +:+ pretty (next_free_id light_names name n id) ∉ light_names.
Proof.
  induction n as [|n IH]; intros tried id Hsize Htried; [lia|].
  simpl. case_bool_decide as Hin; [|done].
  apply (IH (tried ∪ {[name +:+ "_" +:+ pretty id]})).
  - assert (light_names ∖ (tried ∪ {[name +:+ "_" +:+ pretty id]})
            = (light_names ∖ tried) ∖ {[name +:+ "_" +:+ pretty id]}) as ->.
    { apply set_eq. intros x.
      rewrite !elem_of_difference, elem_of_union, elem_of_singleton. tauto. }
    rewrite size_difference.
    + rewrite size_singleton.
      assert (size (light_names ∖ tried) ≠ 0%nat); [|lia].
      apply size_non_empty_iff, (non_empty_inhabited (name +:+ "_" +:+ pretty id)).
      apply elem_of_difference. split; [done|]. apply Htried. lia.
    + apply singleton_subseteq_l, elem_of_difference. split; [done|].
      apply Htried. lia.
  - intros j Hj [Hold|Hnew%elem_of_singleton]%elem_of_union.
    + apply (Htried j); [lia|done].
    + apply light_name_id_inj in Hnew. lia.
Qed.

Lemma next_free_id_free (light_names : gset string) (name : string) id :
  name +:+ "_" +:+ pretty (next_free_id light_names name (S (size light_names)) id)
  ∉ light_names.
Proof.
  apply (next_free_id_bounded _ _ _ ∅).
  - rewrite difference_empty_L. lia.
  - intros j _. apply not_elem_of_empty.
Qed.

End light_names.

(** * Further properties *)

(** ** Decoding a color *)

Section color_properties.
Context `{PyFloat} `{!PyPDF2} `{GS}.

Lemma hex_digit_not_hash c d : hex_digit c = Some d → c ≠ "#"%char.
Proof. by intros Hd ->. Qed.

Lemma lstrip_hash_other c s : c ≠ "#"%char → lstrip_hash (String c s) = String c s.
Proof.
  intros Hc. destruct c as [[] [] [] [] [] [] [] []]; try reflexivity.
  by destruct Hc.
Qed.

Lemma lstrip_hash_hash s : lstrip_hash (String "#" s) = lstrip_hash s.
Proof. reflexivity. Qed.

Lemma int16_two c1 c2 d1 d2 :
  hex_digit c1 = Some d1 → hex_digit c2 = Some d2 →
  int16 (String c1 (String c2 "")) = Ok (16 * d1 + d2).
Proof. intros Hc1 Hc2. unfold int16. cbn [int16_go]. by rewrite Hc1, Hc2. Qed.

(** The value of a channel written with the two digits [hi] and [lo]. *)
Lemma hex_to_rgb_rrggbb c1 c2 c3 c4 c5 c6 d1 d2 d3 d4 d5 d6 :
  hex_digit c1 = Some d1 → hex_digit c2 = Some d2 → hex_digit c3 = Some d3 →
  hex_digit c4 = Some d4 → hex_digit c5 = Some d5 → hex_digit c6 = Some d6 →
  hex_to_rgb (String "#" (String c1 (String c2 (String c3 (String c4
                (String c5 (String c6 "")))))))
  = Ok ((float_div (float_of_Z (16 * d1 + d2)) (float_of_Z 255),
         float_div (float_of_Z (16 * d3 + d4)) (float_of_Z 255),
         float_div (float_of_Z (16 * d5 + d6)) (float_of_Z 255)),
        float_of_Z 1).
Proof.
  intros Hc1 Hc2 Hc3 Hc4 Hc5 Hc6. unfold hex_to_rgb.
  rewrite lstrip_hash_hash, lstrip_hash_other by by eapply hex_digit_not_hash.
  unfold slice. cbn [String.substring Nat.sub String.length].
  rewrite (int16_two _ _ _ _ Hc1 Hc2), (int16_two _ _ _ _ Hc3 Hc4),
    (int16_two _ _ _ _ Hc5 Hc6).
  by rewrite bool_decide_eq_false_2.
Qed.

Lemma hex_to_rgb_rrggbbaa c1 c2 c3 c4 c5 c6 c7 c8 d1 d2 d3 d4 d5 d6 d7 d8 :
  hex_digit c1 = Some d1 → hex_digit c2 = Some d2 → hex_digit c3 = Some d3 →
  hex_digit c4 = Some d4 → hex_digit c5 = Some d5 → hex_digit c6 = Some d6 →
  hex_digit c7 = Some d7 → hex_digit c8 = Some d8 →
  hex_to_rgb (String "#" (String c1 (String c2 (String c3 (String c4
                (String c5 (String c6 (String c7 (String c8 "")))))))))
  = Ok ((float_div (float_of_Z (16 * d1 + d2)) (float_of_Z 255),
         float_div (float_of_Z (16 * d3 + d4)) (float_of_Z 255),
         float_div (float_of_Z (16 * d5 + d6)) (float_of_Z 255)),
        float_div (float_of_Z (16 * d7 + d8)) (float_of_Z 255)).
Proof.
  intros Hc1 Hc2 Hc3 Hc4 Hc5 Hc6 Hc7 Hc8. unfold hex_to_rgb.
  rewrite lstrip_hash_hash, lstrip_hash_other by by eapply hex_digit_not_hash.
  unfold slice. cbn [String.substring Nat.sub String.length].
  rewrite (int16_two _ _ _ _ Hc1 Hc2), (int16_two _ _ _ _ Hc3 Hc4),
    (int16_two _ _ _ _ Hc5 Hc6), (int16_two _ _ _ _ Hc7 Hc8).
  by rewrite bool_decide_eq_true_2.
Qed.

(** X1. [hex_to_rgb] on a color written [#rrggbb] with hexadecimal digits
    (of either case) gives the three channels as the value of their two
    digits divided by 255, and the alpha 1.0; written [#rrggbbaa], the
    alpha is the value of the last two digits divided by 255. *)
Theorem hex_to_rgb_decodes c1 c2 c3 c4 c5 c6 d1 d2 d3 d4 d5 d6 :
  hex_digit c1 = Some d1 → hex_digit c2 = Some d2 → hex_digit c3 = Some d3 →
  hex_digit c4 = Some d4 → hex_digit c5 = Some d5 → hex_digit c6 = Some d6 →
  let channel hi lo := float_div (float_of_Z (16 * hi + lo)) (float_of_Z 255) in
  let rrggbb rest :=
    String c1 (String c2 (String c3 (String c4 (String c5 (String c6 rest))))) in
  hex_to_rgb (String "#" (rrggbb ""))
  = Ok ((channel d1 d2, channel d3 d4, channel d5 d6), float_of_Z 1)
  ∧ ∀ c7 c8 d7 d8,
      hex_digit c7 = Some d7 → hex_digit c8 = Some d8 →
      hex_to_rgb (String "#" (rrggbb (String c7 (String c8 ""))))
      = Ok ((channel d1 d2, channel d3 d4, channel d5 d6), channel d7 d8).
Proof.
  intros Hc1 Hc2 Hc3 Hc4 Hc5 Hc6 channel rrggbb. split.
  - by apply hex_to_rgb_rrggbb.
  - intros c7 c8 d7 d8 Hc7 Hc8. by apply hex_to_rgb_rrggbbaa.
Qed.

Lemma int16_raises s e : int16 s = Raise e → e = ValueError.
Proof.
  unfold int16. destruct s; [by intros [= <-]|].
  destruct (int16_go 0 _); [done|by intros [= <-]].
Qed.

Lemma substring_past (n m : nat) (s : string) :
  (String.length s ≤ n)%nat → String.substring n m s = "".
Proof.
  revert n. induction s as [|c s IH]; intros [|n] Hn; simpl in *;
    try done; try lia.
  - by destruct m.
  - apply IH. lia.
Qed.

Lemma hex_to_rgb_raises value e : hex_to_rgb value = Raise e → e = ValueError.
Proof.
  unfold hex_to_rgb. cbv zeta. set (v := lstrip_hash value).
  destruct (int16 (slice 0 2 v)) as [r|e1] eqn:Hr.
  2:{ apply int16_raises in Hr as ->.
      destruct (int16 (slice 2 4 v)), (int16 (slice 4 6 v)); by intros [= <-]. }
  destruct (int16 (slice 2 4 v)) as [g|e2] eqn:Hg.
  2:{ apply int16_raises in Hg as ->.
      destruct (int16 (slice 4 6 v)); by intros [= <-]. }
  destruct (int16 (slice 4 6 v)) as [b|e3] eqn:Hb.
  2:{ apply int16_raises in Hb as ->. by intros [= <-]. }
  case_bool_decide; [|done].
  destruct (int16 (String.substring 6 _ v)) as [a|e4] eqn:Ha; [done|].
  apply int16_raises in Ha as ->. by intros [= <-].
Qed.

Lemma hex_to_rgb_short value :
  (String.length (lstrip_hash value) < 5)%nat → hex_to_rgb value = Raise ValueError.
Proof.
  intros Hlen. unfold hex_to_rgb. cbv zeta. set (v := lstrip_hash value) in *.
  assert (int16 (slice 4 6 v) = Raise ValueError) as Hb.
  { unfold slice. rewrite substring_past by lia. done. }
  rewrite Hb.
  destruct (int16 (slice 0 2 v)) as [r|e1] eqn:Hr.
  2:{ apply int16_raises in Hr as ->. by destruct (int16 (slice 2 4 v)). }
  destruct (int16 (slice 2 4 v)) as [g|e2] eqn:Hg; [done|].
  by apply int16_raises in Hg as ->.
Qed.

(** X2. A color with fewer than five characters after its leading [#]
    (such as [#fff]) cannot be decoded: [hex_to_rgb] raises [ValueError],
    the only exception it ever raises, and so does [colorize_layer], which
    leaves the file system and the file list as they are. *)
Theorem short_color_raises_ValueError
    suffix color monochrome filelist temp_dir fs :
  (String.length (lstrip_hash color) < 5)%nat →
  hex_to_rgb color = Raise ValueError
  ∧ colorize_layer suffix color monochrome filelist temp_dir fs
    = (Raise ValueError, fs)
  ∧ ∀ value e, hex_to_rgb value = Raise e → e = ValueError.
Proof.
  intros Hlen. split; [by apply hex_to_rgb_short|]. split.
  - unfold colorize_layer. rewrite hex_to_rgb_short by done.
    case_bool_decide as Hblack; [done|].
    subst color. simpl in Hlen. lia.
  - apply hex_to_rgb_raises.
Qed.

(** X3. The alpha digits of a color have no effect on the colored file:
    with a color [#rrggbbaa], [colorize_layer] does what it does with
    [#rrggbb], unless that is [#000000], the color for which no file is
    made. *)
Theorem colorize_layer_ignores_alpha
    suffix monochrome filelist temp_dir fs
    c1 c2 c3 c4 c5 c6 c7 c8 d1 d2 d3 d4 d5 d6 d7 d8 :
  hex_digit c1 = Some d1 → hex_digit c2 = Some d2 → hex_digit c3 = Some d3 →
  hex_digit c4 = Some d4 → hex_digit c5 = Some d5 → hex_digit c6 = Some d6 →
  hex_digit c7 = Some d7 → hex_digit c8 = Some d8 →
  let rrggbb rest :=
    String c1 (String c2 (String c3 (String c4 (String c5 (String c6 rest))))) in
  rrggbb "" ≠ "000000" →
  colorize_layer suffix (String "#" (rrggbb (String c7 (String c8 ""))))
    monochrome filelist temp_dir fs
  = colorize_layer suffix (String "#" (rrggbb "")) monochrome filelist temp_dir fs.
Proof.
  intros Hc1 Hc2 Hc3 Hc4 Hc5 Hc6 Hc7 Hc8 rrggbb Hblack. unfold colorize_layer.
  assert (String "#" (rrggbb (String c7 (String c8 ""))) ≠ "#000000") as Hlong
    by (unfold rrggbb; intros Heq; inversion Heq).
  assert (String "#" (rrggbb "") ≠ "#000000") as Hshort
    by (intros Heq; apply Hblack; congruence).
  rewrite !bool_decide_eq_true_2 by done. unfold rrggbb.
  by rewrite (hex_to_rgb_rrggbbaa _ _ _ _ _ _ _ _ _ _ _ _ _ _ _ _
                Hc1 Hc2 Hc3 Hc4 Hc5 Hc6 Hc7 Hc8),
    (hex_to_rgb_rrggbb _ _ _ _ _ _ _ _ _ _ _ _ Hc1 Hc2 Hc3 Hc4 Hc5 Hc6).
Qed.

End color_properties.
(** ** Reading and writing the PDF files *)

Section pdf_file_properties.
Context `{PyFloat} `{!PyPDF2} `{GS}.




(** The loop of [merge_pdf] stops at the first file that cannot be
    opened. *)
Lemma merge_pdf_loop_missing input_folder good bad rest fs ps :
  mapM (first_page fs input_folder) good = Some ps →
  files fs !! posixpath.join input_folder bad = None →
  ∀ i merged, i = 0%nat ∨ is_Some merged →
  merge_pdf_loop input_folder (good ++ bad :: rest) i merged fs
  = Raise (KiPlotConfigurationError
             ("Error reading `" +:+ bad +:+ "` ("
              +:+ ENOENT (posixpath.join input_folder bad) +:+ ")")).
Proof.
  intros Hps%mapM_Some Hbad.
  induction Hps as [|filename p good ps Hp _ IH]; intros i merged Hi.
  - cbn [app merge_pdf_loop]. unfold read_pdf. by rewrite Hbad.
  - unfold first_page in Hp. cbn [app merge_pdf_loop]. unfold read_pdf.
    destruct (files fs !! posixpath.join input_folder filename) as [d|]; [|done].
    simpl in Hp. rewrite Hp. case_bool_decide as Hzero.
    + apply IH. by right.
    + destruct Hi as [?|[m ->]]; [done|]. apply IH. by right.
Qed.

Lemma merge_pdf_loop_no_page input_folder good bad rest fs ps :
  mapM (first_page fs input_folder) good = Some ps →
  files fs !! posixpath.join input_folder bad = Some [] →
  ∀ i merged, i = 0%nat ∨ is_Some merged →
  merge_pdf_loop input_folder (good ++ bad :: rest) i merged fs = Raise IndexError.
Proof.
  intros Hps%mapM_Some Hbad.
  induction Hps as [|filename p good ps Hp _ IH]; intros i merged Hi.
  - cbn [app merge_pdf_loop]. unfold read_pdf. by rewrite Hbad.
  - unfold first_page in Hp. cbn [app merge_pdf_loop]. unfold read_pdf.
    destruct (files fs !! posixpath.join input_folder filename) as [d|]; [|done].
    simpl in Hp. rewrite Hp. case_bool_decide as Hzero.
    + apply IH. by right.
    + destruct Hi as [?|[m ->]]; [done|]. apply IH. by right.
Qed.

(** X5. [merge_pdf] reports the first input file it cannot open: it raises
    [KiPlotConfigurationError] with "Error reading" and the name of that
    file as it is in the list (not its path), whatever comes after it in
    the list.  A file that opens but has no page makes it raise
    [IndexError], which is not turned into a configuration error.  In
    both cases nothing is written. *)
Theorem merge_pdf_first_unreadable
    input_folder good bad rest output_folder output_file fs ps :
  mapM (first_page fs input_folder) good = Some ps →
  (files fs !! posixpath.join input_folder bad = None →
   merge_pdf input_folder (good ++ bad :: rest) output_folder output_file fs
   = (Raise (KiPlotConfigurationError
               ("Error reading `" +:+ bad +:+ "` ("
                +:+ ENOENT (posixpath.join input_folder bad) +:+ ")")), fs))
  ∧ (files fs !! posixpath.join input_folder bad = Some [] →
     merge_pdf input_folder (good ++ bad :: rest) output_folder output_file fs
     = (Raise IndexError, fs)).
Proof.
  intros Hps. split; intros Hbad; unfold merge_pdf.
  - by rewrite (merge_pdf_loop_missing _ _ _ _ _ _ Hps Hbad) by by left.
  - by rewrite (merge_pdf_loop_no_page _ _ _ _ _ _ Hps Hbad) by by left.
Qed.

Lemma create_pdf_from_pages_loop_missing input_folder good bad rest fs ps :
  mapM (first_page fs input_folder) good = Some ps →
  files fs !! posixpath.join input_folder bad = None →
  ∀ output,
  create_pdf_from_pages_loop input_folder (good ++ bad :: rest) output fs
  = Raise (KiPlotConfigurationError
             ("Error reading `" +:+ bad +:+ "` ("
              +:+ ENOENT (posixpath.join input_folder bad) +:+ ")")).
Proof.
  intros Hps%mapM_Some Hbad.
  induction Hps as [|filename p good ps Hp _ IH]; intros output.
  - cbn [app create_pdf_from_pages_loop]. unfold read_pdf. by rewrite Hbad.
  - unfold first_page in Hp. cbn [app create_pdf_from_pages_loop]. unfold read_pdf.
    destruct (files fs !! posixpath.join input_folder filename) as [d|]; [|done].
    simpl in Hp. rewrite Hp. apply IH.
Qed.

Lemma create_pdf_from_pages_loop_no_page input_folder good bad rest fs ps :
  mapM (first_page fs input_folder) good = Some ps →
  files fs !! posixpath.join input_folder bad = Some [] →
  ∀ output,
  create_pdf_from_pages_loop input_folder (good ++ bad :: rest) output fs
  = Raise IndexError.
Proof.
  intros Hps%mapM_Some Hbad.
  induction Hps as [|filename p good ps Hp _ IH]; intros output.
  - cbn [app create_pdf_from_pages_loop]. unfold read_pdf. by rewrite Hbad.
  - unfold first_page in Hp. cbn [app create_pdf_from_pages_loop]. unfold read_pdf.
    destruct (files fs !! posixpath.join input_folder filename) as [d|]; [|done].
    simpl in Hp. rewrite Hp. apply IH.
Qed.

(** X6. [create_pdf_from_pages] fails the same way: "Error reading" with
    the name of the first file that cannot be opened, [IndexError] for a
    first unusable file that has no page, and no output file in either
    case, even when the files before it were read. *)
Theorem create_pdf_from_pages_first_unreadable
    input_folder good bad rest output_fn fs ps :
  mapM (first_page fs input_folder) good = Some ps →
  (files fs !! posixpath.join input_folder bad = None →
   create_pdf_from_pages input_folder (good ++ bad :: rest) output_fn fs
   = (Raise (KiPlotConfigurationError
               ("Error reading `" +:+ bad +:+ "` ("
                +:+ ENOENT (posixpath.join input_folder bad) +:+ ")")), fs))
  ∧ (files fs !! posixpath.join input_folder bad = Some [] →
     create_pdf_from_pages input_folder (good ++ bad :: rest) output_fn fs
     = (Raise IndexError, fs)).
Proof.
  intros Hps. split; intros Hbad; unfold create_pdf_from_pages.
  - by rewrite (create_pdf_from_pages_loop_missing _ _ _ _ _ _ Hps Hbad).
  - by rewrite (create_pdf_from_pages_loop_no_page _ _ _ _ _ _ Hps Hbad).
Qed.

End pdf_file_properties.
(** ** What [config] establishes *)

Section config_invariants.
Context `{PyFloat} `{KiBot}.

Lemma mapR_Ok {A B} (f : A → result B) (l : list A) (l' : list B) :
  mapR f l = Ok l' → Forall2 (λ a b, f a = Ok b) l l'.
Proof.
  revert l'. induction l as [|a l IH]; intros l'; cbn [mapR].
  - intros [= <-]. constructor.
  - destruct (f a) as [b|e] eqn:Ha; [|done].
    destruct (mapR f l) as [bs|e]; [|done].
    intros [= <-]. constructor; [done|]. by apply IH.
Qed.

Lemma PagesOptions_config_layers p p' :
  PagesOptions_config p = Ok p' → is_Some (layers p').
Proof.
  unfold PagesOptions_config.
  destruct (layers p) as [l|]; [|done].
  destruct (mapR LayerOptions_config l) as [l1|]; [|done].
  destruct (Layer_solve l1) as [msg|l2]; [done|].
  case_bool_decide.
  - destruct (validate_color _ _); [|done]. intros [= <-]. by eexists.
  - intros [= <-]. by eexists.
Qed.

Lemma assign_color_colored (layer_id2color : gmap Z string) la :
  color (assign_color layer_id2color la) ≠ ""
  ∨ layer_id2color !! _id (assign_color layer_id2color la) = Some "".
Proof.
  unfold assign_color. case_bool_decide as Hempty; [|by left].
  destruct (layer_id2color !! _id la) as [c|] eqn:Hc; cbn [color _id LayerOptions_set_color].
  - destruct (decide (c = "")) as [->|]; [by right|by left].
  - by left.
Qed.

Lemma _drill_marks_map_codes name code :
  _drill_marks_map !! name = Some code → 0 ≤ code ≤ 2.
Proof.
  unfold _drill_marks_map.
  intros [[_ <-]|[_ [[_ <-]|[_ [_ <-]%lookup_singleton_Some]]%lookup_insert_Some]]%lookup_insert_Some;
    lia.
Qed.

(** X7. What a configuration that [config] accepts looks like afterwards,
    the state [generate_output] relies on: the color theme is loaded, the
    pages are a list of the same length, every page has a list of layers,
    [_drill_marks] is one of the numbers 0, 1, 2, and every layer has a
    color (unless the theme itself has the empty string for the layer). *)
Theorem config_establishes drill_marks self self' :
  PCB_PrintOptions_config drill_marks self = Ok self' →
  ∃ theme pgs0 pgs code,
    load_color_theme (color_theme self) = Some theme
    ∧ _color_theme self' = Some theme
    ∧ pages self = Some pgs0 ∧ pages self' = Some pgs
    ∧ length pgs = length pgs0
    ∧ _drill_marks self' = DrillCode code ∧ 0 ≤ code ≤ 2
    ∧ Forall (λ p, ∃ l, layers p = Some l
                        ∧ Forall (λ la, color la ≠ ""
                                        ∨ layer_id2color theme !! _id la = Some "") l)
        pgs.
Proof.
  unfold PCB_PrintOptions_config.
  set (after_setter := match drill_marks with
                       | Some val => set_drill_marks val self
                       | None => Ok self
                       end).
  assert (∀ self1, after_setter = Ok self1 →
                   pages self1 = pages self ∧ color_theme self1 = color_theme self)
    as Hsetter.
  { intros self1. unfold after_setter, set_drill_marks.
    destruct drill_marks as [val|]; [|by intros [= <-]].
    case_bool_decide; [done|]. by intros [= <-]. }
  destruct after_setter as [self1|]; [|done].
  destruct (Hsetter self1 eq_refl) as [-> ->]. clear Hsetter.
  destruct (pages self) as [pgs0|]; [|done].
  destruct (mapR PagesOptions_config pgs0) as [pgs1|] eqn:Hpages; [|done].
  apply mapR_Ok in Hpages.
  destruct (load_color_theme (color_theme self)) as [theme|]; [|done].
  destruct (_drill_marks self1) as [name|]; [|done].
  destruct (_drill_marks_map !! name) as [code|] eqn:Hcode; [|done].
  intros [= <-]. cbn [_color_theme pages _drill_marks PCB_PrintOptions_update].
  exists theme, pgs0, (assign_colors (layer_id2color theme) <$> pgs1), code.
  repeat split; try done.
  - rewrite length_fmap. symmetry. by eapply Forall2_length.
  - by apply _drill_marks_map_codes in Hcode as [? _].
  - by apply _drill_marks_map_codes in Hcode as [_ ?].
  - apply Forall_fmap, Forall_forall. intros p1 Hp1. cbn [compose].
    apply (Forall2_Forall_r _ (λ p1, is_Some (layers p1))) in Hpages.
    2:{ apply Forall_forall. intros p0 _ p1' Hp. by eapply PagesOptions_config_layers. }
    rewrite Forall_forall in Hpages. destruct (Hpages p1 Hp1) as [l Hl].
    exists (assign_color (layer_id2color theme) <$> l). split.
    + unfold assign_colors. cbn [layers PagesOptions_set_layers]. by rewrite Hl.
    + apply Forall_fmap, Forall_forall. intros la _. apply assign_color_colored.
Qed.

End config_invariants.

(** ** Runs of [generate_output] that are cut short *)

Section generate_output_properties.
Context `{PyFloat} `{!PyPDF2} `{GS} `{KiBot} `{!pcbnew}.

(** X8. With an empty list of pages [generate_output] plots nothing and
    still writes the output file: a document without pages (where
    [merge_pdf] fails on an empty list, [create_pdf_from_pages] does
    not). *)
Theorem generate_output_without_pages self output fs :
  let temp_dir := mkdtemp "tmp-kibot-pcb_print-" fs in
  pages self = Some [] → output ∉ readonly fs → temp_dir ≠ "" →
  generate_output self output fs
  = (Ok (), FS (filter (λ kv, under temp_dir kv.1 = false)
                  (<[output := []]> (files fs)))
               (readonly fs))
  ∧ (under temp_dir output = false →
     files (generate_output self output fs).2 !! output = Some []).
Proof.
  intros temp_dir Hpages Hout Hd.
  assert (generate_output self output fs
          = (Ok (), FS (filter (λ kv, under temp_dir kv.1 = false)
                          (<[output := []]> (files fs)))
                       (readonly fs))) as Hrun.
  { unfold generate_output. rewrite Hpages. fold temp_dir.
    cbn [imap foldM]. unfold bind, ret, create_pdf_from_pages, write_pdf.
    cbn [create_pdf_from_pages_loop]. rewrite bool_decide_eq_false_2 by done.
    unfold rmtree. by rewrite bool_decide_eq_false_2. }
  split; [done|]. intros Hunder. rewrite Hrun. cbn [snd files].
  apply map_lookup_filter_Some. by rewrite lookup_insert_eq.
Qed.


Lemma create_pdf_from_pages_raises input_folder input_files output_fn fs e fs' :
  create_pdf_from_pages input_folder input_files output_fn fs = (Raise e, fs') →
  fs' = fs.
Proof.
  unfold create_pdf_from_pages.
  destruct (create_pdf_from_pages_loop _ _ _ fs); [|by intros [= _ <-]].
  destruct (write_pdf _ _ fs); [by intros [= _ <-]|done].
Qed.

(** X10. A run of [generate_output] that fails never touches the output
    file, nor anything else outside of the temporary directory: whatever
    was written was written there (and is left there, since the directory
    is only removed at the end of a successful run). *)
Theorem generate_output_failure_confined self output fs fs' e :
  let temp_dir := mkdtemp "tmp-kibot-pcb_print-" fs in
  posixpath.startswith_sep pcb_basename = false → temp_dir ≠ "" →
  generate_output self output fs = (Raise e, fs') →
  readonly fs' = readonly fs
  ∧ ∀ path, under temp_dir path = false → files fs' !! path = files fs !! path.
Proof.
  intros temp_dir Hrel Hd. unfold generate_output. fold temp_dir.
  destruct (pages self) as [pgs|]; [|by intros [= _ <-]].
  unfold bind at 1.
  match goal with |- context [foldM ?f ?init ?l fs] =>
    destruct (confined_foldM temp_dir
                (λ state, OutputDirectory (plot_options state.1) = temp_dir)
                f l (λ st np Hst,
                       generate_page_confined self temp_dir st np Hd Hrel Hst)
                init eq_refl fs) as (Hro & Hfiles & _);
    destruct (foldM f init l fs) as [[[pc pages]|e1] fs1]
  end; simpl in Hro, Hfiles.
  2:{ by intros [= _ <-]. }
  unfold bind.
  destruct (create_pdf_from_pages _ _ _ fs1) as [[[]|e2] fs2] eqn:Hstack.
  - unfold rmtree. by rewrite bool_decide_eq_false_2.
  - apply create_pdf_from_pages_raises in Hstack as ->. by intros [= _ <-].
Qed.

Lemma foldM_length {A B C} (f : B * list C → A → M (B * list C)) (l : list A) :
  (∀ state a fs state' fs',
     f state a fs = (Ok state', fs') → length state'.2 = S (length state.2)) →
  ∀ state fs state' fs',
  foldM f state l fs = (Ok state', fs') →
  length state'.2 = (length state.2 + length l)%nat.
Proof.
  intros Hf. induction l as [|a l IH]; intros state fs state' fs'; cbn [foldM].
  - intros [= <- _]. simpl. lia.
  - intros (state1 & fs1 & Hstep & Hrest)%bind_Ok.
    apply Hf in Hstep. apply IH in Hrest. simpl. lia.
Qed.

Lemma generate_page_length self d state np fs state' fs' :
  generate_page self d state np fs = (Ok state', fs') →
  length state'.2 = S (length state.2).
Proof.
  destruct state as [pc pages], np as [n p]. unfold generate_page.
  intros (pc1 & fs1 & _ & Hrun)%bind_Ok.
  apply bind_Ok in Hrun as (pc2 & fs2 & _ & Hrun).
  apply bind_Ok in Hrun as (filelist & fs3 & _ & Hrun).
  apply bind_Ok in Hrun as (filelist' & fs4 & _ & Hrun).
  apply bind_Ok in Hrun as ([] & fs5 & _ & Hrun).
  injection Hrun as <- _. simpl. rewrite length_app. simpl. lia.
Qed.

Lemma create_pdf_from_pages_loop_length input_folder input_files fs :
  ∀ output doc,
  create_pdf_from_pages_loop input_folder input_files output fs = Ok doc →
  length doc = (length output + length input_files)%nat.
Proof.
  induction input_files as [|filename input_files IH]; intros output doc;
    cbn [create_pdf_from_pages_loop].
  - intros [= <-]. simpl. lia.
  - destruct (read_pdf _ fs) as [er|pdf_reader]; [done|].
    destruct (pdf_reader !! 0%nat) as [page_obj|]; [|done].
    intros Hrest%IH. rewrite length_app in Hrest. simpl in *. lia.
Qed.

(** X11. A run of [generate_output] that completes leaves an output
    document with exactly one page per configured page, whatever the
    layers and the names of the intermediate files are. *)
Theorem generate_output_page_count self output fs fs' pgs :
  let temp_dir := mkdtemp "tmp-kibot-pcb_print-" fs in
  pages self = Some pgs → under temp_dir output = false →
  generate_output self output fs = (Ok (), fs') →
  ∃ doc, files fs' !! output = Some doc ∧ length doc = length pgs.
Proof.
  intros temp_dir Hpages Hout. unfold generate_output. fold temp_dir.
  rewrite Hpages.
  intros ([pc pages] & fs1 & Hloop & Hrun)%bind_Ok.
  apply bind_Ok in Hrun as ([] & fs2 & Hstack & Hrm).
  apply foldM_length in Hloop; [|intros; by eapply generate_page_length].
  simpl in Hloop. rewrite length_imap in Hloop.
  unfold rmtree in Hrm. case_bool_decide as Hd; [done|].
  injection Hrm as <-.
  unfold create_pdf_from_pages in Hstack.
  destruct (create_pdf_from_pages_loop _ _ _ fs1) as [doc|] eqn:Hdoc; [|done].
  apply create_pdf_from_pages_loop_length in Hdoc.
  unfold write_pdf in Hstack. case_bool_decide; [done|].
  injection Hstack as <-. exists doc. split.
  - simpl. apply map_lookup_filter_Some. by rewrite lookup_insert_eq.
  - simpl in Hdoc. lia.
Qed.

End generate_output_properties.

(** ** The options a plot is made with *)

Section plot_options_properties.
Context `{PyFloat} `{!PyPDF2} `{GS} `{KiBot} `{!pcbnew}.

(** The option [k] of the controller. *)
Local Abbreviation option_of pc k := (params (plot_options pc) !! k).

(** A key is none of the keys of a list of literals. *)
Local Ltac not_in_keys :=
  rewrite !not_elem_of_cons; repeat split; try done; apply not_elem_of_nil.

Lemma layer_plots_lookup title p las :
  ∀ pc i la, las !! i = Some la →
  layer_plots title p pc las !! i
  = Some (plot_pdf (job_of title (sheet p)
                      (setup_layer p la (after_layers p pc (take i las))))).
Proof.
  induction las as [|la0 las IH]; intros pc i la Hla; [done|].
  destruct i as [|i]; cbn [layer_plots lookup list_lookup].
  - by injection Hla as ->.
  - rewrite (IH _ _ _ Hla). done.
Qed.

Lemma setup_layer_other p la pc k :
  k ∉ ["PlotReference"; "PlotValue"; "PlotInvisibleText"] →
  option_of (setup_layer p la pc) k = option_of pc k.
Proof.
  intros Hk. rewrite !not_elem_of_cons in Hk. destruct Hk as (? & ? & ? & _).
  unfold setup_layer. cbn [plot_options OpenPlotfile SetLayer with_options SetParam params].
  by rewrite !lookup_insert_ne by done.
Qed.

Lemma after_layers_other p las k :
  k ∉ ["PlotReference"; "PlotValue"; "PlotInvisibleText"] →
  ∀ pc, option_of (after_layers p pc las) k = option_of pc k.
Proof.
  intros Hk. induction las as [|la las IH]; intros pc; [done|].
  cbn [after_layers foldl]. fold (after_layers p (setup_layer p la pc) las).
  by rewrite IH, setup_layer_other.
Qed.

Lemma setup_page_other p pc k :
  k ∉ ["PlotFrameRef"; "Mirror"; "Scale"; "Negative"; "PlotViaOnMaskLayer";
       "LineWidth"; "PlotPadsOnSilkLayer"] →
  option_of (setup_page p pc) k = option_of pc k.
Proof.
  intros Hk. rewrite !not_elem_of_cons in Hk.
  destruct Hk as (? & ? & ? & ? & ? & ? & ? & _).
  unfold setup_page. destruct ki5;
    cbn [plot_options with_options SetParam params];
    by rewrite !lookup_insert_ne by done.
Qed.

(** What [setup_page] sets. *)
Lemma setup_page_sets p pc :
  option_of (setup_page p pc) "PlotFrameRef" = Some (PBool false)
  ∧ option_of (setup_page p pc) "Mirror" = Some (PBool (mirror p))
  ∧ option_of (setup_page p pc) "Scale" = Some (PFloat (scaling p))
  ∧ option_of (setup_page p pc) "Negative" = Some (PBool (negative_plot p))
  ∧ option_of (setup_page p pc) "PlotViaOnMaskLayer"
    = Some (PBool (negb (tent_vias p)))
  ∧ option_of (setup_page p pc) "LineWidth"
    = (if ki5 then Some (PInt (FromMM (line_width p)))
       else option_of pc "LineWidth")
  ∧ option_of (setup_page p pc) "PlotPadsOnSilkLayer"
    = (if ki5 then Some (PBool (negb (exclude_pads_from_silkscreen p)))
       else option_of pc "PlotPadsOnSilkLayer").
Proof.
  unfold setup_page. destruct ki5;
    cbn [plot_options with_options SetParam params];
    repeat split;
    repeat first [rewrite lookup_insert_eq | rewrite lookup_insert_ne by done];
    done.
Qed.

(** X12. Every layer of a page is plotted with the options of its page
    and its own, whatever was set before: without the frame, mirrored,
    scaled and inverted as the page asks, with the vias tented or not, with
    its own choice of references, values and invisible texts, on its own
    layer, with the sheet of the page.  Nothing that the plot of a frame or
    an earlier page or layer has set carries over; the line width and the
    pads on the silk screen are only set for KiCad 5; every other option
    of the plot controller is left as it was. *)
Theorem layer_plot_options self p pc i la :
  page_layers p !! i = Some la →
  ∃ job,
    page_plots self p pc !! i = Some (plot_pdf job)
    ∧ job_layer job = _id la ∧ job_sheet job = sheet p
    ∧ job_title job = page_title self p
    ∧ job_params job !! "PlotFrameRef" = Some (PBool false)
    ∧ job_params job !! "Mirror" = Some (PBool (mirror p))
    ∧ job_params job !! "Scale" = Some (PFloat (scaling p))
    ∧ job_params job !! "Negative" = Some (PBool (negative_plot p))
    ∧ job_params job !! "PlotViaOnMaskLayer" = Some (PBool (negb (tent_vias p)))
    ∧ job_params job !! "PlotReference" = Some (PBool (plot_footprint_refs la))
    ∧ job_params job !! "PlotValue" = Some (PBool (plot_footprint_values la))
    ∧ job_params job !! "PlotInvisibleText"
      = Some (PBool (force_plot_invisible_refs_vals la))
    ∧ job_params job !! "LineWidth"
      = (if ki5 then Some (PInt (FromMM (line_width p)))
         else option_of pc "LineWidth")
    ∧ job_params job !! "PlotPadsOnSilkLayer"
      = (if ki5 then Some (PBool (negb (exclude_pads_from_silkscreen p)))
         else option_of pc "PlotPadsOnSilkLayer")
    ∧ ∀ k, k ∉ ["PlotFrameRef"; "Mirror"; "Scale"; "Negative";
                "PlotViaOnMaskLayer"; "LineWidth"; "PlotPadsOnSilkLayer";
                "PlotReference"; "PlotValue"; "PlotInvisibleText"] →
           job_params job !! k = option_of pc k.
Proof.
  intros Hla. eexists. split.
  { unfold page_plots. rewrite lookup_app_l.
    - by apply layer_plots_lookup.
    - rewrite layer_plots_length. by eapply lookup_lt_Some. }
  set (pc1 := after_layers p (setup_page p pc) (take i (page_layers p))).
  destruct (setup_page_sets p pc) as (Hf & Hm & Hs & Hn & Hv & Hw & Hp).
  assert (∀ k, k ∉ ["PlotReference"; "PlotValue"; "PlotInvisibleText"] →
               option_of (setup_layer p la pc1) k = option_of (setup_page p pc) k)
    as Hpage.
  { intros k Hk. unfold pc1. by rewrite setup_layer_other, after_layers_other. }
  cbn [job_of job_layer job_sheet job_title job_params].
  split; [done|]. split; [done|]. split; [done|].
  do 5 (split; [by rewrite Hpage by not_in_keys|]).
  do 3 (split; [unfold setup_layer;
                cbn [plot_options OpenPlotfile SetLayer with_options SetParam params];
                by repeat first [rewrite lookup_insert_eq
                                | rewrite lookup_insert_ne by done]|]).
  do 2 (split; [by rewrite Hpage by not_in_keys|]).
  intros k Hk. rewrite !not_elem_of_cons in Hk.
  destruct Hk as (? & ? & ? & ? & ? & ? & ? & ? & ? & ? & _).
  rewrite Hpage, setup_page_other; [done|..]; not_in_keys.
Qed.

(** The text options after the layers: those of the last layer. *)
Lemma after_layers_text p pc las :
  option_of (after_layers p pc las) "PlotReference"
  = from_option (λ la, Some (PBool (plot_footprint_refs la)))
      (option_of pc "PlotReference") (last las)
  ∧ option_of (after_layers p pc las) "PlotValue"
    = from_option (λ la, Some (PBool (plot_footprint_values la)))
        (option_of pc "PlotValue") (last las)
  ∧ option_of (after_layers p pc las) "PlotInvisibleText"
    = from_option (λ la, Some (PBool (force_plot_invisible_refs_vals la)))
        (option_of pc "PlotInvisibleText") (last las).
Proof.
  induction las as [|la las _] using rev_ind; [done|].
  unfold after_layers. rewrite foldl_app, last_snoc. cbn [foldl from_option].
  unfold setup_layer. cbn [plot_options OpenPlotfile SetLayer with_options SetParam params].
  repeat split;
    by repeat first [rewrite lookup_insert_eq | rewrite lookup_insert_ne by done].
Qed.

(** X13. When the sheet reference is plotted, the frame of a page is the
    plot that follows those of its layers.  It is made on the work layer
    with the frame switched on and at scale 1.0, whatever the scaling of
    the page; it is mirrored and inverted like the page; and it inherits
    the choice of references, values and invisible texts of the last layer
    of the page (or what was set before the page, if it has no layer). *)
Theorem frame_plot_options self p pc :
  plot_sheet_reference self = true →
  ∃ job,
    page_plots self p pc !! length (page_layers p) = Some (plot_pdf job)
    ∧ length (page_plots self p pc) = S (length (page_layers p))
    ∧ job_layer job = work_layer_id ∧ job_sheet job = sheet p
    ∧ job_title job = page_title self p
    ∧ job_params job !! "PlotFrameRef" = Some (PBool true)
    ∧ job_params job !! "Scale" = Some (PFloat (float_of_Z 1))
    ∧ job_params job !! "Mirror" = Some (PBool (mirror p))
    ∧ job_params job !! "Negative" = Some (PBool (negative_plot p))
    ∧ job_params job !! "PlotViaOnMaskLayer" = Some (PBool (negb (tent_vias p)))
    ∧ job_params job !! "PlotReference"
      = from_option (λ la, Some (PBool (plot_footprint_refs la)))
          (option_of pc "PlotReference") (last (page_layers p))
    ∧ job_params job !! "PlotValue"
      = from_option (λ la, Some (PBool (plot_footprint_values la)))
          (option_of pc "PlotValue") (last (page_layers p))
    ∧ job_params job !! "PlotInvisibleText"
      = from_option (λ la, Some (PBool (force_plot_invisible_refs_vals la)))
          (option_of pc "PlotInvisibleText") (last (page_layers p)).
Proof.
  intros Hframe. eexists. split; [|split].
  { unfold page_plots. rewrite Hframe.
    rewrite lookup_app_r by (by rewrite layer_plots_length).
    by rewrite layer_plots_length, Nat.sub_diag. }
  { unfold page_plots. rewrite Hframe, length_app, layer_plots_length. simpl. lia. }
  set (pc2 := after_layers p (setup_page p pc) (page_layers p)).
  destruct (setup_page_sets p pc) as (Hf & Hm & Hs & Hn & Hv & Hw & Hp).
  destruct (after_layers_text p (setup_page p pc) (page_layers p))
    as (Hr & Hval & Hinv). fold pc2 in Hr, Hval, Hinv.
  assert (∀ k, k ∉ ["PlotFrameRef"; "Scale"] →
               option_of (setup_frame p pc2) k = option_of pc2 k) as Hother.
  { intros k Hk. rewrite !not_elem_of_cons in Hk. destruct Hk as (? & ? & _).
    unfold setup_frame.
    cbn [plot_options OpenPlotfile SetLayer with_options SetParam params].
    by rewrite !lookup_insert_ne by done. }
  assert (∀ k, k ∉ ["PlotReference"; "PlotValue"; "PlotInvisibleText"] →
               option_of pc2 k = option_of (setup_page p pc) k) as Hpage.
  { intros k Hk. unfold pc2. by rewrite after_layers_other. }
  cbn [job_of job_layer job_sheet job_title job_params].
  split; [done|]. split; [done|]. split; [done|].
  do 2 (split; [unfold setup_frame;
                cbn [plot_options OpenPlotfile SetLayer with_options SetParam params];
                by repeat first [rewrite lookup_insert_eq
                                | rewrite lookup_insert_ne by done]|]).
  do 3 (split; [by rewrite Hother, Hpage by not_in_keys|]).
  rewrite !Hother by not_in_keys. rewrite Hr, Hval, Hinv.
  by rewrite !setup_page_other by not_in_keys.
Qed.

End plot_options_properties.

(** ** The configuration of the Blender export *)

Section blender_config_properties.
Import blender_export.
Context `{PyFloat}.

(** [_rviews] is [_views] read from right to left. *)
Lemma _rviews_inverse letter long :
  _rviews !! letter = Some long ↔ _views !! long = Some letter.
Proof.
  unfold _rviews, _views. split; intros Hlookup;
    repeat (apply lookup_insert_Some in Hlookup as [[<- <-]|[_ Hlookup]];
            [reflexivity|]);
    by apply lookup_singleton_Some in Hlookup as [<- <-].
Qed.

Lemma _views_letter (view : string) :
  view ∈ view_names ↔ is_Some (_rviews !! default view (_views !! view)).
Proof.
  unfold view_names. split.
  - rewrite !elem_of_cons, elem_of_nil.
    intros [->|[->|[->|[->|[->|[->|[->|[->|[->|[->|[->|[->|[]]]]]]]]]]]]];
      by eexists.
  - intros [long Hlong].
    destruct (_views !! view) as [letter|] eqn:Hview; simpl in Hlong.
    + unfold _views in Hview.
      repeat (apply lookup_insert_Some in Hview as [[<- <-]|[_ Hview]];
              [set_solver|]).
      apply lookup_singleton_Some in Hview as [<- <-]. set_solver.
    + unfold _rviews in Hlong.
      repeat (apply lookup_insert_Some in Hlong as [[<- <-]|[_ Hlong]];
              [set_solver|]).
      apply lookup_singleton_Some in Hlong as [<- <-]. set_solver.
Qed.

(** X14. [config] of the Blender export checks, in this order: the name
    of the output that makes the PCB3D file, which must not be empty; that
    there are outputs; and, at its very end, the view, which must be one
    of the six names or six letters, since otherwise the suffix of the
    output id cannot be made and a [TypeError] leaves [config].  In every
    other case [config] succeeds. *)
Theorem blender_config_outcome size self :
  (pcb3d self = "" →
   config size self
   = Raise (KiPlotConfigurationError
              "You must specify the name of the output that generates the PCB3D file"))
  ∧ (pcb3d self ≠ "" → outputs self = Missing →
     config size self
     = Raise (KiPlotConfigurationError "You must specify at least one output"))
  ∧ (pcb3d self ≠ "" → outputs self ≠ Missing →
     (view self ∈ view_names → ∃ self', config size self = Ok self')
     ∧ (view self ∉ view_names → config size self = Raise TypeError)).
Proof.
  unfold config. split; [|split].
  - intros Hpcb3d. by rewrite bool_decide_eq_true_2.
  - intros Hpcb3d Houtputs. by rewrite bool_decide_eq_false_2, Houtputs.
  - intros Hpcb3d Houtputs. rewrite bool_decide_eq_false_2 by done.
    pose proof (_views_letter (view self)) as Hview.
    destruct (_rviews !! default (view self) (_views !! view self)) as [long|].
    + split; [|intros Hno; destruct Hno; apply Hview; by eexists].
      intros _. destruct (outputs self); [done|by eexists..].
    + split; [intros [? [=]]%Hview|].
      intros _. by destruct (outputs self).
Qed.

Lemma config_Ok size self self' :
  config size self = Ok self' →
  ∃ long,
    _rviews !! default (view self) (_views !! view self) = Some long
    ∧ self'
      = {| pcb3d := pcb3d self;
           pcb_import := Some (default PCB2BlenderOptions_default (pcb_import self));
           outputs := Many (as_list (outputs self));
           light :=
             Many (check_light_names
                     match light self with
                     | Missing =>
                         if add_default_light self then
                           [ {| name := "kibot_light";
                                pos_x := float_mul (float_neg size) (float_lit 3.33);
                                pos_y := float_mul size (float_lit 3.33);
                                pos_z := float_mul size (float_lit 5.0) |} ]
                         else []
                     | One li => [li]
                     | Many l => l
                     end);
           add_default_light := add_default_light self;
           camera :=
             match camera self with
             | None => None
             | Some c =>
                 Some (if bool_decide (name c = "")
                       then BlenderLightOptions_set_name "kibot_camera" c else c)
             end;
           render_options :=
             Some (default BlenderRenderOptions_default (render_options self));
           rotate_x := rotate_x self; rotate_y := rotate_y self;
           rotate_z := rotate_z self;
           view := default (view self) (_views !! view self);
           _expand_id := _expand_id self +:+ "_" +:+ long;
           _expand_ext := _expand_ext self |}.
Proof.
  unfold config. case_bool_decide; [done|].
  destruct (_rviews !! default (view self) (_views !! view self)) as [long|];
    [|by destruct (outputs self)].
  destruct (outputs self); [done|..]; intros [= <-]; by exists long.
Qed.

(** X15. What a successful [config] leaves: the outputs are a list (a
    single output has become a list of one), there are import and render
    options (the given ones, or the defaults), the lights are a list, a
    camera has a name ("kibot_camera" if it had none), and the view is one
    of the six letters, whether it was given by name or by letter; the
    output id has got the name of that view as suffix. *)
Theorem blender_config_normalises size self self' :
  config size self = Ok self' →
  pcb3d self' ≠ ""
  ∧ outputs self' = Many (as_list (outputs self)) ∧ outputs self ≠ Missing
  ∧ pcb_import self'
    = Some (default PCB2BlenderOptions_default (pcb_import self))
  ∧ render_options self'
    = Some (default BlenderRenderOptions_default (render_options self))
  ∧ (∃ lights, light self' = Many lights)
  ∧ (camera self' = None ↔ camera self = None)
  ∧ (∀ c, camera self' = Some c → name c ≠ "")
  ∧ ∃ long, _views !! long = Some (view self')
            ∧ view self' ∈ ["z"; "Z"; "y"; "Y"; "x"; "X"]
            ∧ _expand_id self' = _expand_id self +:+ "_" +:+ long.
Proof.
  intros Hconfig.
  assert (pcb3d self ≠ "" ∧ outputs self ≠ Missing) as [Hpcb3d Houtputs].
  { unfold config in Hconfig. case_bool_decide; [done|]. split; [done|].
    intros Hmissing. by rewrite Hmissing in Hconfig. }
  apply config_Ok in Hconfig as (long & Hlong & ->).
  cbn [pcb3d outputs pcb_import render_options light camera view _expand_id].
  repeat split; try done.
  - by eexists.
  - by destruct (camera self).
  - by destruct (camera self).
  - intros c Hc. destruct (camera self) as [c0|]; [|done].
    injection Hc as <-. case_bool_decide; [done|]. done.
  - exists long. split; [by apply _rviews_inverse|]. split; [|done].
    unfold _rviews in Hlong.
    repeat (apply lookup_insert_Some in Hlong as [[<- <-]|[_ Hlong]];
            [set_solver|]).
    apply lookup_singleton_Some in Hlong as [<- <-]. set_solver.
Qed.

End blender_config_properties.

(** * The theorems at work on the small board *)

#[local] Existing Instance Q_PyFloat.
#[local] Existing Instance example_PyPDF2.
#[local] Existing Instance example_GS.
#[local] Existing Instance example_KiBot.
#[local] Existing Instance example_pcbnew.

Lemma colorize_pdf_recolors_black_witness :
  let fs := FS {[ "/tmp/w/layer.pdf" := example_pdf ]} ∅ in
  let red : color3 := (1%Q, 0%Q, 0%Q) in
  colorize_pdf "/tmp/w" "layer.pdf" "layer-colored.pdf" red fs
  = (Ok (),
     FS {[ "/tmp/w/layer.pdf" := example_pdf;
           "/tmp/w/layer-colored.pdf" :=
             [ Page [([FloatObject 1%Q; FloatObject 0%Q; FloatObject 0%Q], "rg");
                     ([NumberObject 1; NumberObject 0; NumberObject 0], "RG");
                     ([NumberObject 10; NumberObject 20], "m")] "first";
               Page [([FloatObject 1%Q; FloatObject 0%Q; FloatObject 0%Q], "RG");
                     ([NumberObject 0; NumberObject 0], "rg")] "second" ] ]} ∅).
Proof.
  intros fs red.
  destruct (colorize_pdf_recolors_black "/tmp/w" "layer.pdf" "layer-colored.pdf"
              red fs example_pdf) as [Hrun _].
  - reflexivity.
  - apply not_elem_of_empty.
  - discriminate.
  - rewrite Hrun. reflexivity.
Defined.

Lemma merge_pdf_and_create_pdf_from_pages_witness :
  let a := Page [([NumberObject 1], "a")] "A" : page in
  let b := Page [([NumberObject 2], "b")] "B" : page in
  let c := Page [([NumberObject 3], "c")] "C" : page in
  let fs := FS {[ "/tmp/w/a.pdf" := [a]; "/tmp/w/b.pdf" := [b; a];
                  "/tmp/w/c.pdf" := [c] ]} ∅ in
  merge_pdf "/tmp/w" ["a.pdf"; "b.pdf"; "c.pdf"] "/tmp/w" "page.pdf" fs
  = (Ok (),
     FS (<["/tmp/w/page.pdf" :=
             [Page [([NumberObject 1], "a"); ([NumberObject 2], "b");
                    ([NumberObject 3], "c")] "A"]]> (files fs)) ∅)
  ∧ create_pdf_from_pages "/tmp/w" ["c.pdf"; "b.pdf"] "/out/doc.pdf" fs
    = (Ok (), FS (<["/out/doc.pdf" := [c; b]]> (files fs)) ∅).
Proof.
  intros a b c fs.
  refine (merge_pdf_and_create_pdf_from_pages
            "/tmp/w" ["a.pdf"; "b.pdf"; "c.pdf"] "/tmp/w" "page.pdf" fs a [b; c]
            "/tmp/w" ["c.pdf"; "b.pdf"] "/out/doc.pdf" [c; b] _ _ _ _ _ _).
  - reflexivity.
  - apply not_elem_of_empty.
  - vm_compute. intros Hin. repeat (inversion Hin as [|? ? ? Hin']; subst; clear Hin; rename Hin' into Hin).
  - reflexivity.
  - apply not_elem_of_empty.
  - vm_compute. intros Hin. repeat (inversion Hin as [|? ? ? Hin']; subst; clear Hin; rename Hin' into Hin).
Defined.

Lemma colorize_layer_colored_witness :
  let plot := [Page [([NumberObject 0; NumberObject 0; NumberObject 0], "rg");
                     ([NumberObject 0], "Do")] "Assembly"] : pdf in
  let fs := FS {[ "/tmp/w/board-F_Cu.pdf" := plot ]} ∅ in
  let gray : Q := (((200 # 255) + (52 # 255) + (52 # 255)) / 3)%Q in
  colorize_layer "F_Cu" "#C83434" true ["board-Edge_Cuts.pdf"] "/tmp/w" fs
  = (Ok ["board-Edge_Cuts.pdf"; "board-F_Cu-colored.pdf"],
     FS (<["/tmp/w/board-F_Cu-colored.pdf" :=
             [Page [([FloatObject gray; FloatObject gray; FloatObject gray], "rg");
                    ([NumberObject 0], "Do")] "Assembly"]]> (files fs)) ∅).
Proof.
  intros plot fs gray.
  refine (colorize_layer_colored "F_Cu" "#C83434" true ["board-Edge_Cuts.pdf"]
            "/tmp/w" fs plot (200 # 255)%Q (52 # 255)%Q (52 # 255)%Q 1%Q
            _ _ _ _).
  - discriminate.
  - reflexivity.
  - reflexivity.
  - apply not_elem_of_empty.
Defined.



Lemma generate_output_pipeline_witness :
  ∃ fs',
    generate_output example_configured "/out/board-assembly.pdf" empty_fs
    = (Ok (), fs')
    ∧ files fs' !! "/out/board-assembly.pdf" = Some example_document.
Proof.
  refine (generate_output_pipeline example_configured "/out/board-assembly.pdf"
            empty_fs example_pages example_document _ _ _ _ _ _ _ _).
  - reflexivity.
  - reflexivity.
  - compute_done.
  - discriminate.
  - reflexivity.
  - intros path _. apply not_elem_of_empty.
  - apply not_elem_of_empty.
  - reflexivity.
Defined.

Lemma generate_output_removes_temporary_files_witness :
  let temp_dir := "/tmp/tmp-kibot-pcb_print-k1b0t" in
  let fs' := FS {[ "/out/board-assembly.pdf" := example_document ]} ∅ in
  (∀ path, under temp_dir path = true → files fs' !! path = None)
  ∧ (∀ path, under temp_dir path = false → path ≠ "/out/board-assembly.pdf" →
             files fs' !! path = files empty_fs !! path)
  ∧ is_Some (files fs' !! "/out/board-assembly.pdf").
Proof.
  intros temp_dir fs'.
  refine (generate_output_removes_temporary_files example_configured
            "/out/board-assembly.pdf" empty_fs fs' _ _ _).
  - reflexivity.
  - reflexivity.
  - vm_compute. reflexivity.
Defined.

#[local] Existing Instance example_kiplot.


Lemma run_missing_pcb3d_witness :
  blender_export.run (example_export "broken" []) empty_world
  = (Raise (KiPlotConfigurationError "Missing /out/broken.pcb3d"),
     {| blender_export.disk := ∅; blender_export.outputs_done := {["broken"]};
        blender_export.commands := [] |}).
Proof.
  destruct (run_missing_pcb3d (example_export "broken" []) empty_world
              "/out/broken.pcb3d" [] "/out" "broken") as [Hrun _].
  - reflexivity.
  - reflexivity.
  - rewrite Hrun. reflexivity.
Defined.

(** C10, on two lights of the same name: [config] succeeds and both
    lights keep the name, because no name is ever added to the set
    [light_names] that the loop looks up. *)
Theorem config_keeps_equal_light_names :
  (λ r, match r with
        | Ok self' =>
            blender_export.name <$> blender_export.as_list (blender_export.light self')
        | Raise _ => []
        end)
    (blender_export.config (1%Q : @float Q_PyFloat)
       (example_export "pcb3d" [example_light "spot"; example_light "spot";
                                example_light ""; example_light ""]))
  = ["spot"; "spot"; "kibot_light"; "kibot_light"].
Proof. reflexivity. Qed.

(** ** Further properties, on the small board *)

Lemma hex_to_rgb_decodes_witness :
  hex_to_rgb "#C83434" = Ok (((200 # 255)%Q, (52 # 255)%Q, (52 # 255)%Q), 1%Q)
  ∧ hex_to_rgb "#c8343480"
    = Ok (((200 # 255)%Q, (52 # 255)%Q, (52 # 255)%Q), (128 # 255)%Q).
Proof.
  split.
  - exact (proj1 (hex_to_rgb_decodes "C" "8" "3" "4" "3" "4" 12 8 3 4 3 4
                    eq_refl eq_refl eq_refl eq_refl eq_refl eq_refl)).
  - exact (proj2 (hex_to_rgb_decodes "c" "8" "3" "4" "3" "4" 12 8 3 4 3 4
                    eq_refl eq_refl eq_refl eq_refl eq_refl eq_refl)
             "8"%char "0"%char 8 0 eq_refl eq_refl).
Defined.

Lemma short_color_raises_ValueError_witness :
  hex_to_rgb "#fff" = Raise ValueError
  ∧ colorize_layer "F_Cu" "#fff" false ["board-Edge_Cuts.pdf"] "/tmp/w" empty_fs
    = (Raise ValueError, empty_fs).
Proof.
  destruct (short_color_raises_ValueError "F_Cu" "#fff" false
              ["board-Edge_Cuts.pdf"] "/tmp/w" empty_fs) as (Hrgb & Hlayer & _).
  - simpl. lia.
  - by split.
Defined.

Lemma colorize_layer_ignores_alpha_witness :
  let plot := [Page [([NumberObject 0; NumberObject 0; NumberObject 0], "rg");
                     ([NumberObject 0], "Do")] "Assembly"] : pdf in
  let fs := FS {[ "/tmp/w/board-F_Cu.pdf" := plot ]} ∅ in
  colorize_layer "F_Cu" "#C8343480" false [] "/tmp/w" fs
  = colorize_layer "F_Cu" "#C83434" false [] "/tmp/w" fs.
Proof.
  intros plot fs.
  refine (colorize_layer_ignores_alpha "F_Cu" false [] "/tmp/w" fs
            "C" "8" "3" "4" "3" "4" "8" "0" 12 8 3 4 3 4 8 0
            eq_refl eq_refl eq_refl eq_refl eq_refl eq_refl eq_refl eq_refl _).
  discriminate.
Defined.


Lemma merge_pdf_first_unreadable_witness :
  let a := Page [([NumberObject 1], "a")] "A" : page in
  let fs := FS {[ "/tmp/w/a.pdf" := [a]; "/tmp/w/empty.pdf" := [] ]} ∅ in
  merge_pdf "/tmp/w" ["a.pdf"; "missing.pdf"; "empty.pdf"] "/tmp/w" "page.pdf" fs
  = (Raise (KiPlotConfigurationError
              "Error reading `missing.pdf` ([Errno 2] No such file or directory: '/tmp/w/missing.pdf')"),
     fs)
  ∧ merge_pdf "/tmp/w" ["a.pdf"; "empty.pdf"; "missing.pdf"] "/tmp/w" "page.pdf" fs
    = (Raise IndexError, fs).
Proof.
  intros a fs. split.
  - exact (proj1 (merge_pdf_first_unreadable "/tmp/w" ["a.pdf"] "missing.pdf"
                    ["empty.pdf"] "/tmp/w" "page.pdf" fs [a] eq_refl) eq_refl).
  - exact (proj2 (merge_pdf_first_unreadable "/tmp/w" ["a.pdf"] "empty.pdf"
                    ["missing.pdf"] "/tmp/w" "page.pdf" fs [a] eq_refl) eq_refl).
Defined.

Lemma create_pdf_from_pages_first_unreadable_witness :
  let a := Page [([NumberObject 1], "a")] "A" : page in
  let fs := FS {[ "/tmp/w/a.pdf" := [a]; "/tmp/w/empty.pdf" := [] ]} ∅ in
  create_pdf_from_pages "/tmp/w" ["a.pdf"; "missing.pdf"; "empty.pdf"] "/out/doc.pdf" fs
  = (Raise (KiPlotConfigurationError
              "Error reading `missing.pdf` ([Errno 2] No such file or directory: '/tmp/w/missing.pdf')"),
     fs)
  ∧ create_pdf_from_pages "/tmp/w" ["a.pdf"; "empty.pdf"; "missing.pdf"] "/out/doc.pdf" fs
    = (Raise IndexError, fs).
Proof.
  intros a fs. split.
  - exact (proj1 (create_pdf_from_pages_first_unreadable "/tmp/w" ["a.pdf"]
                    "missing.pdf" ["empty.pdf"] "/out/doc.pdf" fs [a] eq_refl)
             eq_refl).
  - exact (proj2 (create_pdf_from_pages_first_unreadable "/tmp/w" ["a.pdf"]
                    "empty.pdf" ["missing.pdf"] "/out/doc.pdf" fs [a] eq_refl)
             eq_refl).
Defined.

Lemma config_establishes_witness :
  ∃ theme pgs0 pgs code,
    load_color_theme "_builtin_classic" = Some theme
    ∧ _color_theme example_configured = Some theme
    ∧ Some example_pages = Some pgs0 ∧ pages example_configured = Some pgs
    ∧ length pgs = length pgs0
    ∧ _drill_marks example_configured = DrillCode code ∧ 0 ≤ code ≤ 2
    ∧ Forall (λ p, ∃ l, layers p = Some l
                        ∧ Forall (λ la, color la ≠ ""
                                        ∨ layer_id2color theme !! _id la = Some "") l)
        pgs.
Proof.
  exact (config_establishes None (example_options (Some example_pages))
           example_configured eq_refl).
Defined.

Lemma generate_output_without_pages_witness :
  let self := PCB_PrintOptions_update (DrillCode 2) (Some example_theme) (Some [])
                example_configured in
  generate_output self "/out/board-assembly.pdf" empty_fs
  = (Ok (), FS (filter (λ kv, under "/tmp/tmp-kibot-pcb_print-k1b0t" kv.1 = false)
                  (<["/out/board-assembly.pdf" := []]> ∅)) ∅)
  ∧ files (generate_output self "/out/board-assembly.pdf" empty_fs).2
      !! "/out/board-assembly.pdf" = Some [].
Proof.
  intros self.
  destruct (generate_output_without_pages self "/out/board-assembly.pdf" empty_fs)
    as [Hrun Hfile].
  - reflexivity.
  - apply not_elem_of_empty.
  - discriminate.
  - split; [exact Hrun|]. apply Hfile. reflexivity.
Defined.


Lemma generate_output_failure_confined_witness :
  let self := PCB_PrintOptions_update (DrillCode 2) (Some example_theme)
                (Some [example_page false
                         (Some [example_layer "F.Cu" "F_Cu" 0 "#fff"])])
                example_configured in
  let fs' := (generate_output self "/out/board-assembly.pdf" empty_fs).2 in
  is_Some (files fs' !! "/tmp/tmp-kibot-pcb_print-k1b0t/board-F_Cu.pdf")
  ∧ readonly fs' = readonly empty_fs
  ∧ ∀ path, under "/tmp/tmp-kibot-pcb_print-k1b0t" path = false →
            files fs' !! path = files empty_fs !! path.
Proof.
  intros self fs'. split; [by eexists|].
  refine (generate_output_failure_confined self "/out/board-assembly.pdf"
            empty_fs fs' ValueError _ _ _).
  - reflexivity.
  - discriminate.
  - vm_compute. reflexivity.
Defined.

Lemma generate_output_page_count_witness :
  let fs' := FS {[ "/out/board-assembly.pdf" := example_document ]} ∅ in
  ∃ doc, files fs' !! "/out/board-assembly.pdf" = Some doc
         ∧ length doc = length example_pages.
Proof.
  intros fs'.
  refine (generate_output_page_count example_configured "/out/board-assembly.pdf"
            empty_fs fs' example_pages _ _ _).
  - reflexivity.
  - reflexivity.
  - vm_compute. reflexivity.
Defined.

Lemma layer_plot_options_witness :
  let first := example_page false
                 (Some [example_layer "F.Cu" "F_Cu" 0 "#C83434";
                        example_layer "F.SilkS" "F_SilkS" 37 "#000000"]) in
  let second := example_page true (Some [example_layer "B.Cu" "B_Cu" 31 "#4D7FC4"]) in
  let pc := page_controller example_configured first
              (plot_controller example_configured "/tmp/t") in
  params (plot_options pc) !! "PlotFrameRef" = Some (PBool true)
  ∧ ∃ job, page_plots example_configured second pc !! 0%nat = Some (plot_pdf job)
           ∧ job_layer job = 31
           ∧ job_params job !! "PlotFrameRef" = Some (PBool false)
           ∧ job_params job !! "DrillMarksType" = Some (PInt 2).
Proof.
  intros first second pc. split; [reflexivity|].
  destruct (layer_plot_options example_configured second pc 0
              (example_layer "B.Cu" "B_Cu" 31 "#4D7FC4") eq_refl)
    as (job & Hplot & Hlayer & _ & _ & Hframe & _ & _ & _ & _ & _ & _ & _ & _ & _
        & Hother).
  exists job. split; [exact Hplot|]. split; [exact Hlayer|].
  split; [exact Hframe|]. rewrite Hother; [reflexivity|].
  rewrite !not_elem_of_cons. repeat split; try discriminate. apply not_elem_of_nil.
Defined.

Lemma frame_plot_options_witness :
  let first := example_page false
                 (Some [example_layer "F.Cu" "F_Cu" 0 "#C83434";
                        example_layer "F.SilkS" "F_SilkS" 37 "#000000"]) in
  let pc := plot_controller example_configured "/tmp/t" in
  ∃ job, page_plots example_configured first pc !! 2%nat = Some (plot_pdf job)
         ∧ job_layer job = 100
         ∧ job_params job !! "PlotFrameRef" = Some (PBool true)
         ∧ job_params job !! "Scale" = Some (PFloat 1%Q)
         ∧ job_params job !! "PlotReference" = Some (PBool true).
Proof.
  intros first pc.
  destruct (frame_plot_options example_configured first pc eq_refl)
    as (job & Hplot & _ & Hlayer & _ & _ & Hframe & Hscale & _ & _ & _ & Href & _).
  exists job. split; [exact Hplot|]. split; [exact Hlayer|].
  split; [exact Hframe|]. split; [exact Hscale|]. exact Href.
Defined.
